(** * OctoPush: the static code-analysis and scoring engine

    A shallow embedding of [backend/services/codeAnalyzer.js], of the
    score recomputation and the summary of [backend/models/CodeReview.js],
    and of the step of [backend/routes/review.js] that writes an analysis
    into a review.

    Conventions of the embedding.
    - A JavaScript string is a [string]: one [ascii] per UTF-16 code unit,
      so the texts covered are those over the code units 0..255.
    - A JavaScript number holding an integer is a [Z]; the maintainability
      index, the one fractional number, is a [Q]: the double expression
      [100 - complexity * 2 - loc * 0.1] is read in exact arithmetic.
    - [async]/[await] is sequential here: a function returns its value.
    - An exception is a [Throw] of the completion monad below. *)

From Stdlib Require Import ZArith List Bool Ascii String Lia.
From Stdlib Require Import QArith Qminmax Lqa.
From Stdlib Require Import DecimalString Permutation.
Import ListNotations.

Open Scope string_scope.
Open Scope Z_scope.

(** ** JavaScript string primitives *)

Module Js.

(** Values a caller can pass where the code expects a string. *)
Inductive Value :=
| Undefined
| Null
| Number (n : Z)
| Str (s : string).

Inductive Error :=
| TypeError (message : string)
| SyntaxError (message : string)
| OtherError (message : string).

(** Completion of an evaluation: a value or a thrown exception. *)
Inductive Completion (A : Type) :=
| Normal (a : A)
| Throw (e : Error).
Arguments Normal {A} a.
Arguments Throw {A} e.

Definition bind {A B : Type} (c : Completion A) (k : A -> Completion B)
  : Completion B :=
  match c with
  | Normal a => k a
  | Throw e => Throw e
  end.

(** [try { body } catch (error) { handler }] *)
Definition tryCatch {A : Type} (body : Completion A) (handler : Error -> A) : A :=
  match body with
  | Normal a => a
  | Throw e => handler e
  end.

(** WhiteSpace and LineTerminator code units below 256: TAB, LF, VT, FF,
    CR, SP and NBSP. *)
Definition isWhiteSpace (c : ascii) : bool :=
  let n := nat_of_ascii c in
  ((9 <=? n) && (n <=? 13))%nat || (n =? 32)%nat || (n =? 160)%nat.

(** [\w]: the characters of [A-Za-z0-9_]. *)
Definition isWordChar (c : ascii) : bool :=
  let n := nat_of_ascii c in
  (((65 <=? n) && (n <=? 90)) || ((97 <=? n) && (n <=? 122))
   || ((48 <=? n) && (n <=? 57)) || (n =? 95))%nat.

Definition toLowerChar (c : ascii) : ascii :=
  let n := nat_of_ascii c in
  if (((65 <=? n) && (n <=? 90))
      || ((192 <=? n) && (n <=? 222) && negb (n =? 215)))%nat
  then ascii_of_nat (n + 32) else c.

Fixpoint mapChars (f : ascii -> ascii) (s : string) : string :=
  match s with
  | EmptyString => EmptyString
  | String c r => String (f c) (mapChars f r)
  end.

(** [v.toLowerCase()]: a method of strings only. *)
Definition toLowerCase (v : Value) : Completion string :=
  match v with
  | Str s => Normal (mapChars toLowerChar s)
  | Undefined => Throw (TypeError "Cannot read properties of undefined")
  | Null => Throw (TypeError "Cannot read properties of null")
  | Number _ => Throw (TypeError "language.toLowerCase is not a function")
  end.

Definition length (s : string) : Z := Z.of_nat (String.length s).

(** [s.split('\n')]: always at least one piece. *)
Fixpoint splitLines (s : string) : list string :=
  match s with
  | EmptyString => [EmptyString]
  | String c r =>
      if Ascii.eqb c "010"%char then EmptyString :: splitLines r
      else match splitLines r with
           | h :: t => String c h :: t
           | [] => [String c EmptyString]
           end
  end.

Fixpoint trimStart (s : string) : string :=
  match s with
  | EmptyString => EmptyString
  | String c r => if isWhiteSpace c then trimStart r else s
  end.

Fixpoint trimEnd (s : string) : string :=
  match s with
  | EmptyString => EmptyString
  | String c r =>
      match trimEnd r with
      | EmptyString => if isWhiteSpace c then EmptyString else String c EmptyString
      | r' => String c r'
      end
  end.

Definition trim (s : string) : string := trimEnd (trimStart s).

(** [s.indexOf(sub)]: the index of the first occurrence, or -1. *)
Definition indexOf (sub s : string) : Z :=
  match String.index 0 sub s with
  | Some i => Z.of_nat i
  | None => -1
  end.

Definition includes (sub s : string) : bool := 0 <=? indexOf sub s.

Fixpoint endsWith (suffix s : string) : bool :=
  if String.eqb s suffix then true
  else match s with
       | EmptyString => false
       | String _ r => endsWith suffix r
       end.

(** [s.substring(from)] and [s.substring(0, to)] with constant bounds. *)
Definition substringFrom (from : nat) (s : string) : string :=
  String.substring from (String.length s - from) s.

Definition substringTo (to : nat) (s : string) : string :=
  String.substring 0 to s.

(** [s.slice(start, end)] for non-negative bounds. *)
Definition slice (start end_ : nat) (s : string) : string :=
  String.substring start (end_ - start) s.

Fixpoint repeat (s : string) (n : nat) : string :=
  match n with
  | O => EmptyString
  | S n' => s ++ repeat s n'
  end.

(** [s.replace(sub, by)] with a string pattern: the first occurrence only. *)
Definition replace (sub by_ s : string) : string :=
  match String.index 0 sub s with
  | Some i =>
      substringTo i s ++ by_ ++ substringFrom (i + String.length sub) s
  | None => s
  end.

(** Template-literal conversion of an integer. *)
Definition numberToString (n : Z) : string :=
  NilZero.string_of_int (Z.to_int n).

(** [x || 1] on a number: 0 is falsy. *)
Definition orOne (n : Z) : Z := if n =? 0 then 1 else n.

(** [try { body } catch (error) { handler }] with a handler that can throw
    in its turn. *)
Definition tryCatchThrowing {A : Type} (body : Completion A)
  (handler : Error -> Completion A) : Completion A :=
  match body with
  | Normal a => Normal a
  | Throw e => handler e
  end.

(** [code.split(...)], [code.substring(...)]: the call of a string method
    on a value.  On a string it goes through, and the text is handed on;
    on any other value it throws. *)
Definition stringMethod (name : string) (v : Value) : Completion string :=
  match v with
  | Str s => Normal s
  | Undefined =>
      Throw (TypeError
               ("Cannot read properties of undefined (reading '" ++ name ++ "')"))
  | Null =>
      Throw (TypeError
               ("Cannot read properties of null (reading '" ++ name ++ "')"))
  | Number _ => Throw (TypeError ("code." ++ name ++ " is not a function"))
  end.

End Js.

Notation "x <- c ;; k" := (Js.bind c (fun x => k))
  (at level 61, c at next level, right associativity).

(** ** Regular expressions

    The fragment of the RegExp library that the analyzer uses: the patterns
    built by [new RegExp(`\\b${keyword}\\b`, 'g')] and the two pattern
    literals of the Python and Java analyzers.  Matching is the
    backtracking search of the language: alternatives in order, greedy
    repetition, the continuation deciding whether a choice stands. *)

Module RegExp.

Inductive Node :=
| Empty
| Char (c : ascii)
| Class (member : ascii -> bool)
| WordBoundary
| LineStart
| Seq (a b : Node)
| Alt (a b : Node)
| Star (a : Node).

Definition Plus (a : Node) : Node := Seq a (Star a).

(** Is there a word character at index [i] of [s]? *)
Definition wordAt (s : string) (i : nat) : bool :=
  match String.get i s with
  | Some c => Js.isWordChar c
  | None => false
  end.

(** [\b] at index [i]: exactly one side is a word character. *)
Definition isWordBoundary (s : string) (i : nat) : bool :=
  let a := match i with O => false | S j => wordAt s j end in
  let b := wordAt s i in
  xorb a b.

(** [run r s i k]: match [r] at index [i] of [s], then continue with [k] at
    the index reached; [None] is failure.  A repetition gives up an
    iteration that consumed nothing, and tries its longest run first; as
    every iteration kept consumes a character, there are at most
    [String.length s] of them. *)
Fixpoint run (r : Node) (s : string) (i : nat) (k : nat -> option nat)
  {struct r} : option nat :=
  match r with
  | Empty => k i
  | Char c =>
      match String.get i s with
      | Some c' => if Ascii.eqb c c' then k (S i) else None
      | None => None
      end
  | Class member =>
      match String.get i s with
      | Some c' => if member c' then k (S i) else None
      | None => None
      end
  | WordBoundary => if isWordBoundary s i then k i else None
  | LineStart => if Nat.eqb i 0 then k i else None
  | Seq a b => run a s i (fun j => run b s j k)
  | Alt a b =>
      match run a s i k with
      | Some e => Some e
      | None => run b s i k
      end
  | Star a =>
      (fix loop (n : nat) (i : nat) {struct n} : option nat :=
         match n with
         | O => k i
         | S n' =>
             match run a s i (fun j => if Nat.eqb j i then None else loop n' j) with
             | Some e => Some e
             | None => k i
             end
         end) (String.length s) i
  end.

(** The end of the match of [r] that starts at index [i], if any. *)
Definition matchAt (r : Node) (s : string) (i : nat) : option nat :=
  run r s i Some.

(** [exec] without the global flag: the first index from 0 at which the
    pattern matches, with the end of the match. *)
Fixpoint search (r : Node) (s : string) (i n : nat) : option (nat * nat) :=
  match n with
  | O => None
  | S n' =>
      match matchAt r s i with
      | Some e => Some (i, e)
      | None => search r s (S i) n'
      end
  end.

Definition exec (r : Node) (s : string) : option (nat * nat) :=
  search r s 0 (S (String.length s)).

(** [s.match(r)] used as a condition, [r] without the global flag. *)
Definition test (r : Node) (s : string) : bool :=
  match exec r s with Some _ => true | None => false end.

(** [s.replace(r, f)], [r] without the global flag: the first match is
    replaced by [f] of the matched text. *)
Definition replaceWith (r : Node) (f : string -> string) (s : string) : string :=
  match exec r s with
  | Some (i, e) =>
      Js.substringTo i s ++ f (Js.slice i e s) ++ Js.substringFrom e s
  | None => s
  end.

(** [s.match(r)] with the global flag: the matches from left to right.
    The scan visits the indices [i], [i+1], ... ([n] of them); after a
    match from [i] to [e] the search resumes at [e], or at [i+1] when the
    match is empty, so [skip] indices are passed over. *)
Fixpoint matchAllFrom (r : Node) (s : string) (i skip n : nat)
  : list (nat * nat) :=
  match n with
  | O => []
  | S n' =>
      match skip with
      | S skip' => matchAllFrom r s (S i) skip' n'
      | O =>
          match matchAt r s i with
          | Some e => (i, e) :: matchAllFrom r s (S i) (e - i - 1) n'
          | None => matchAllFrom r s (S i) 0 n'
          end
      end
  end.

Definition matchAll (r : Node) (s : string) : list (nat * nat) :=
  matchAllFrom r s 0 0 (S (String.length s)).

(** *** Pattern source

    [new RegExp(pattern)] for the pattern syntax that the keyword patterns
    are made of: [|] separates alternatives, [\b] is the word-boundary
    assertion, every other character stands for itself. *)

(** The first alternative of the pattern, and the disjunction of those
    after its [|], if there is one. *)
Fixpoint parsePattern (p : string) : Node * option Node :=
  match p with
  | EmptyString => (Empty, None)
  | String "|" rest =>
      let (a, more) := parsePattern rest in
      (Empty, Some (match more with None => a | Some d => Alt a d end))
  | String "\" (String "b" rest) =>
      let (a, more) := parsePattern rest in (Seq WordBoundary a, more)
  | String c rest =>
      let (a, more) := parsePattern rest in (Seq (Char c) a, more)
  end.

Definition new (pattern : string) : Node :=
  let (a, more) := parsePattern pattern in
  match more with
  | None => a
  | Some d => Alt a d
  end.

End RegExp.

(** ** Data model

    The issue record as [issueSchema] declares it and as the analyzers fill
    it.  The per-issue [explanation] and [resources] and the [analysis]
    block of the result (strengths, next steps) are constant texts that no
    metric and no branch reads; they are not carried. *)

Inductive Severity := error | warning | info | suggestion.

Inductive Category :=
| syntax | style | performance | security | maintainability | best_practice.

Inductive Impact := low | medium | high | critical.

Record CodeSnippet := { original : string; suggested : string }.

Record Issue := {
  line : Z;
  column : Z;
  severity : Severity;
  category : Category;
  title : string;
  description : string;
  suggestedFix : string;
  codeSnippet : CodeSnippet;
  impact : Impact
}.

Record Metrics := {
  linesOfCode : Z;
  complexity : Z;
  maintainabilityIndex : Q;
  technicalDebt : Z;
  overallScore : Z
}.

Record AnalysisResult := {
  issues : list Issue;
  metrics : Metrics
}.

Definition setIssues (a : AnalysisResult) (l : list Issue) : AnalysisResult :=
  {| issues := l; metrics := metrics a |}.

Definition setLinesOfCode (a : AnalysisResult) (n : Z) : AnalysisResult :=
  {| issues := issues a;
     metrics := {| linesOfCode := n;
                   complexity := complexity (metrics a);
                   maintainabilityIndex := maintainabilityIndex (metrics a);
                   technicalDebt := technicalDebt (metrics a);
                   overallScore := overallScore (metrics a) |} |}.

Definition setComplexity (a : AnalysisResult) (n : Z) : AnalysisResult :=
  {| issues := issues a;
     metrics := {| linesOfCode := linesOfCode (metrics a);
                   complexity := n;
                   maintainabilityIndex := maintainabilityIndex (metrics a);
                   technicalDebt := technicalDebt (metrics a);
                   overallScore := overallScore (metrics a) |} |}.

Definition setMaintainabilityIndex (a : AnalysisResult) (q : Q) : AnalysisResult :=
  {| issues := issues a;
     metrics := {| linesOfCode := linesOfCode (metrics a);
                   complexity := complexity (metrics a);
                   maintainabilityIndex := q;
                   technicalDebt := technicalDebt (metrics a);
                   overallScore := overallScore (metrics a) |} |}.

Definition setOverallScore (a : AnalysisResult) (n : Z) : AnalysisResult :=
  {| issues := issues a;
     metrics := {| linesOfCode := linesOfCode (metrics a);
                   complexity := complexity (metrics a);
                   maintainabilityIndex := maintainabilityIndex (metrics a);
                   technicalDebt := technicalDebt (metrics a);
                   overallScore := n |} |}.

Definition severity_eqb (a b : Severity) : bool :=
  match a, b with
  | error, error | warning, warning | info, info | suggestion, suggestion => true
  | _, _ => false
  end.

(** [issues.filter(i => i.severity === s).length] *)
Definition countSeverity (s : Severity) (l : list Issue) : Z :=
  Z.of_nat (List.length (filter (fun i => severity_eqb (severity i) s) l)).

(** ** The syntax tree of the JavaScript analyzer

    [@babel/parser] and [@babel/traverse] are libraries outside the
    repository.  A traversal is seen through the nodes it hands to the four
    visitors, in order, each with the properties the visitors read. *)

Record Loc := { startLine : Z; startColumn : Z }.

(** Node types met by [functionPath.traverse] below a function. *)
Inductive NodeType :=
| IfStatement
| ConditionalExpression
| ForStatement
| WhileStatement
| DoWhileStatement
| SwitchCase
| CatchClause
| LogicalExpression (operator : string)
| OtherNode.

Record Callee := {
  calleeType : string;
  objectName : option string;
  propertyName : option string
}.

Inductive Visit :=
| VariableDeclaration (kind : string) (loc : option Loc) (start end_ : nat)
| ExpressionStatement (loc : option Loc)
| FunctionDeclaration (loc : option Loc) (idName : option string)
    (descendants : list NodeType)
| CallExpression (loc : option Loc) (callee : Callee).

(** ** backend/services/codeAnalyzer.js *)

Module CodeAnalyzer.

Definition dquote : string := String "034"%char EmptyString.

(** [lines.forEach((line, index) => ...)]: the issues pushed by the
    callback, line after line. *)
Fixpoint forEachLine (callback : string -> Z -> list Issue)
  (lines : list string) (index : Z) : list Issue :=
  match lines with
  | [] => []
  | l :: rest => callback l index ++ forEachLine callback rest (index + 1)
  end.

(** *** Helper functions *)

Definition countLinesOfCode (code : string) : Z :=
  Z.of_nat (List.length
    (filter (fun l => 0 <? Js.length (Js.trim l)) (Js.splitLines code))).

Definition complexityKeywords : list string :=
  ["if"; "else"; "for"; "while"; "switch"; "case"; "catch"; "&&"; "||"].

(** [code.match(regex)] with the global flag: the matches, [None] for
    JavaScript's [null] when there is none. *)
Definition matchGlobal (regex : RegExp.Node) (code : string)
  : option (list (nat * nat)) :=
  match RegExp.matchAll regex code with
  | [] => None
  | l => Some l
  end.

(** The callback of [complexityKeywords.forEach]: the counter after one
    keyword. *)
Definition addMatches (code : string) (complexity : Z) (keyword : string) : Z :=
  let regex := RegExp.new ("\b" ++ keyword ++ "\b") in
  match matchGlobal regex code with
  | Some matches => complexity + Z.of_nat (List.length matches)
  | None => complexity
  end.

Definition calculateComplexity (code : string) (language : Js.Value) : Z :=
  let complexity := fold_left (addMatches code) complexityKeywords 1 in
  Z.min complexity 20.

(** The index in exact arithmetic: the double that the source computes
    can differ from it by a rounding in the last place, never in the
    clamp. *)
Definition calculateMaintainabilityIndex (code : string) (language : Js.Value)
  : Q :=
  let loc := countLinesOfCode code in
  let complexity := calculateComplexity code language in
  let index := (100 - (inject_Z complexity * 2) - (inject_Z loc * 0.1))%Q in
  Qmax 0 (Qmin 100 index).

(** The visitors of [calculateFunctionComplexity].  Seven of them are
    arrow functions with an expression body, [() => complexity++]: they
    return the counter as it was before the increment, which is 1 or more.
    [@babel/traverse] accepts no return value from a visitor and throws
    ("Unexpected return value from visitor method") on a truthy one.  The
    visitor of [LogicalExpression] has a block body and returns nothing. *)
Definition returnsCounter (n : NodeType) : bool :=
  match n with
  | IfStatement | ConditionalExpression | ForStatement | WhileStatement
  | DoWhileStatement | SwitchCase | CatchClause => true
  | LogicalExpression _ | OtherNode => false
  end.

(** [path.node.operator === '&&' || path.node.operator === '||'] *)
Definition isCountedOperator (n : NodeType) : bool :=
  match n with
  | LogicalExpression op => String.eqb op "&&" || String.eqb op "||"
  | _ => false
  end.

(** [functionPath.traverse({...})] over the nodes below the function, in
    order, from the counter [complexity]. *)
Fixpoint functionTraverse (descendants : list NodeType) (complexity : Z)
  : Js.Completion Z :=
  match descendants with
  | [] => Js.Normal complexity
  | n :: rest =>
      if returnsCounter n
      then Js.Throw (Js.OtherError "Unexpected return value from visitor method")
      else if isCountedOperator n
           then functionTraverse rest (complexity + 1)
           else functionTraverse rest complexity
  end.

Definition calculateFunctionComplexity (descendants : list NodeType)
  : Js.Completion Z :=
  functionTraverse descendants 1.

(** The running score after the [forEach] of [calculateOverallScore]. *)
Definition scoreLoop (issues : list Issue) : Z :=
  fold_left
    (fun score issue =>
       match severity issue with
       | error => score - 20
       | warning => score - 10
       | info => score - 5
       | suggestion => score - 2
       end)
    issues 100.

Definition calculateOverallScore (issues : list Issue) : Z :=
  let score := scoreLoop issues in
  Z.max 0 score.

(** *** Python *)

Definition pythonLine (line : string) (index : Z) : list Issue :=
  let lineNum := index + 1 in
  let trimmedLine := Js.trim line in
  (if (0 <? Js.length line)
      && (match String.get 0 line with
          | Some c => Ascii.eqb c " "
          | None => false
          end)
      && negb (Z.rem (Js.indexOf " " line) 4 =? 0)
   then
     [{| line := lineNum; column := 1;
         severity := warning; category := style;
         title := "Inconsistent indentation";
         description := "Python recommends 4 spaces for indentation";
         suggestedFix := "Use 4 spaces for each indentation level";
         codeSnippet :=
           {| original := line;
              suggested :=
                RegExp.replaceWith
                  (RegExp.Seq RegExp.LineStart (RegExp.Plus (RegExp.Char " ")))
                  (fun match_ =>
                     Js.repeat " " ((String.length match_ + 3) / 4 * 4)%nat)
                  line |};
         impact := low |}]
   else [])
  ++
  (if 79 <? Js.length line
   then
     [{| line := lineNum; column := 80;
         severity := info; category := style;
         title := "Line too long";
         description :=
           "Line is " ++ Js.numberToString (Js.length line)
           ++ " characters long (max recommended: 79)";
         suggestedFix := "Break long line into multiple lines";
         codeSnippet :=
           {| original := Js.substringFrom 70 line;
              suggested := "\n    # continuation" |};
         impact := low |}]
   else [])
  ++
  (if Js.includes "print(" trimmedLine
   then
     [{| line := lineNum; column := Js.indexOf "print(" line + 1;
         severity := suggestion; category := best_practice;
         title := "Print statement in code";
         description := "Consider using logging instead of print statements";
         suggestedFix := "Replace with logging.info() or similar";
         codeSnippet :=
           {| original := trimmedLine;
              suggested := Js.replace "print(" "logging.info(" trimmedLine |};
         impact := low |}]
   else []).

Definition analyzePython (code : string) (analysis : AnalysisResult)
  : AnalysisResult :=
  let lines := Js.splitLines code in
  let issues := forEachLine pythonLine lines 0 in
  setIssues analysis issues.

(** *** Java *)

Definition literal (s : string) : RegExp.Node :=
  fold_right (fun c r => RegExp.Seq (RegExp.Char c) r) RegExp.Empty
    (list_ascii_of_string s).

Definition whiteSpace : RegExp.Node := RegExp.Class Js.isWhiteSpace.

Definition notChar (c : ascii) : RegExp.Node :=
  RegExp.Class (fun x => negb (Ascii.eqb x c)).

(** [/^(if|for|while|else)\s*\([^)]*\)\s*[^{]/] *)
Definition missingBraces : RegExp.Node :=
  RegExp.Seq RegExp.LineStart
   (RegExp.Seq
      (RegExp.Alt (literal "if")
         (RegExp.Alt (literal "for")
            (RegExp.Alt (literal "while") (literal "else"))))
      (RegExp.Seq (RegExp.Star whiteSpace)
         (RegExp.Seq (RegExp.Char "(")
            (RegExp.Seq (RegExp.Star (notChar ")"))
               (RegExp.Seq (RegExp.Char ")")
                  (RegExp.Seq (RegExp.Star whiteSpace) (notChar "{"))))))).

Definition javaLine (line : string) (index : Z) : list Issue :=
  let lineNum := index + 1 in
  let trimmedLine := Js.trim line in
  (if Js.includes "System.out.println" trimmedLine
   then
     [{| line := lineNum; column := Js.indexOf "System.out.println" line + 1;
         severity := suggestion; category := best_practice;
         title := "System.out.println in code";
         description := "Consider using a logging framework instead";
         suggestedFix := "Replace with proper logging";
         codeSnippet :=
           {| original := trimmedLine;
              suggested :=
                "logger.info(" ++ dquote ++ "message" ++ dquote ++ ");" |};
         impact := low |}]
   else [])
  ++
  (if RegExp.test missingBraces trimmedLine
   then
     [{| line := lineNum; column := 1;
         severity := warning; category := style;
         title := "Missing braces for control statement";
         description := "Always use braces for control statements";
         suggestedFix := "Add braces around the statement";
         codeSnippet :=
           {| original := trimmedLine; suggested := trimmedLine ++ " {" |};
         impact := medium |}]
   else []).

Definition analyzeJava (code : string) (analysis : AnalysisResult)
  : AnalysisResult :=
  let lines := Js.splitLines code in
  let issues := forEachLine javaLine lines 0 in
  setIssues analysis issues.

(** *** C++ *)

Definition cppLine (code : string) (line : string) (index : Z) : list Issue :=
  let lineNum := index + 1 in
  let trimmedLine := Js.trim line in
  (if Js.includes "using namespace std" trimmedLine
   then
     [{| line := lineNum; column := 1;
         severity := warning; category := best_practice;
         title := "Avoid " ++ dquote ++ "using namespace std" ++ dquote;
         description := "This can cause naming conflicts in larger programs";
         suggestedFix :=
           "Use specific declarations like " ++ dquote ++ "using std::cout;"
           ++ dquote;
         codeSnippet :=
           {| original := trimmedLine;
              suggested := "using std::cout; using std::endl;" |};
         impact := medium |}]
   else [])
  ++
  (if Js.includes "new " trimmedLine && negb (Js.includes "delete" code)
   then
     [{| line := lineNum; column := Js.indexOf "new " line + 1;
         severity := error; category := security;
         title := "Potential memory leak";
         description := "new without corresponding delete";
         suggestedFix :=
           "Add corresponding delete statement or use smart pointers";
         codeSnippet :=
           {| original := trimmedLine;
              suggested := "Use std::unique_ptr or std::shared_ptr" |};
         impact := high |}]
   else []).

Definition analyzeCpp (code : string) (analysis : AnalysisResult)
  : AnalysisResult :=
  let lines := Js.splitLines code in
  let issues := forEachLine (cppLine code) lines 0 in
  setIssues analysis issues.

(** *** Generic analysis for unsupported languages *)

Definition genericLine (line : string) (index : Z) : list Issue :=
  let lineNum := index + 1 in
  (if 120 <? Js.length line
   then
     [{| line := lineNum; column := 121;
         severity := info; category := style;
         title := "Long line";
         description :=
           "Line is " ++ Js.numberToString (Js.length line)
           ++ " characters long";
         suggestedFix := "Consider breaking into multiple lines";
         codeSnippet :=
           {| original := Js.substringFrom 100 line; suggested := "" |};
         impact := low |}]
   else [])
  ++
  (if negb (String.eqb line (Js.trimEnd line))
   then
     [{| line := lineNum; column := Js.length (Js.trimEnd line) + 1;
         severity := info; category := style;
         title := "Trailing whitespace";
         description := "Line has trailing whitespace characters";
         suggestedFix := "Remove trailing whitespace";
         codeSnippet :=
           {| original := line; suggested := Js.trimEnd line |};
         impact := low |}]
   else []).

Definition analyzeGeneric (code : string) (analysis : AnalysisResult)
  : AnalysisResult :=
  let lines := Js.splitLines code in
  let issues := forEachLine genericLine lines 0 in
  setIssues analysis issues.

(** *** JavaScript *)

(** [path.node.loc?.start.line || 1] and the same for the column. *)
Definition lineOr1 (loc : option Loc) : Z :=
  match loc with
  | Some l => Js.orOne (startLine l)
  | None => 1
  end.

Definition columnOr1 (loc : option Loc) : Z :=
  match loc with
  | Some l => Js.orOne (startColumn l)
  | None => 1
  end.

(** [code.split('\n')[path.node.loc?.start.line - 1] || ''] *)
Definition sourceLine (code : string) (loc : option Loc) : string :=
  match loc with
  | Some l =>
      if 0 <=? startLine l - 1
      then nth (Z.to_nat (startLine l - 1)) (Js.splitLines code) ""
      else ""
  | None => ""
  end.

Definition option_eqb (o : option string) (s : string) : bool :=
  match o with
  | Some x => String.eqb x s
  | None => false
  end.

(** The four visitors: the issues pushed at one node.  Each has a block
    body and returns nothing; the one of [FunctionDeclaration] throws when
    [calculateFunctionComplexity] does. *)
Definition visitor (code : string) (v : Visit) : Js.Completion (list Issue) :=
  match v with
  | VariableDeclaration kind loc start end_ =>
      Js.Normal
      (if String.eqb kind "var"
      then
        [{| line := lineOr1 loc; column := columnOr1 loc;
            severity := warning; category := best_practice;
            title := "Use let/const instead of var";
            description :=
              "Using var can lead to unexpected behavior due to hoisting";
            suggestedFix := "Replace 'var' with 'let' or 'const'";
            codeSnippet :=
              {| original := Js.slice start end_ code;
                 suggested :=
                   Js.replace "var" "const" (Js.slice start end_ code) |};
            impact := medium |}]
      else [])
  | ExpressionStatement loc =>
      let line_ := sourceLine code loc in
      Js.Normal
      (if negb (Js.endsWith ";" (Js.trim line_))
         && negb (Js.endsWith "}" (Js.trim line_))
      then
        [{| line := lineOr1 loc; column := columnOr1 loc;
            severity := info; category := style;
            title := "Missing semicolon";
            description :=
              "Semicolons help prevent automatic semicolon insertion issues";
            suggestedFix := "Add semicolon at the end of the statement";
            codeSnippet :=
              {| original := Js.trim line_;
                 suggested := Js.trim line_ ++ ";" |};
            impact := low |}]
      else [])
  | FunctionDeclaration loc idName descendants =>
      complexity <- calculateFunctionComplexity descendants ;;
      Js.Normal
      (if 10 <? complexity
      then
        [{| line := lineOr1 loc; column := columnOr1 loc;
            severity := warning; category := maintainability;
            title := "High function complexity";
            description :=
              "Function has cyclomatic complexity of "
              ++ Js.numberToString complexity;
            suggestedFix := "Break this function into smaller functions";
            codeSnippet :=
              {| original :=
                   match idName with
                   | Some name => if String.eqb name "" then "anonymous function"
                                  else name
                   | None => "anonymous function"
                   end;
                 suggested := "Consider extracting helper functions" |};
            impact := high |}]
      else [])
  | CallExpression loc callee =>
      Js.Normal
      (if String.eqb (calleeType callee) "MemberExpression"
         && option_eqb (objectName callee) "console"
         && option_eqb (propertyName callee) "log"
      then
        [{| line := lineOr1 loc; column := columnOr1 loc;
            severity := suggestion; category := best_practice;
            title := "Console.log in production code";
            description := "Remove console.log statements before production";
            suggestedFix := "Remove console.log or replace with proper logging";
            codeSnippet :=
              {| original := "console.log(...)";
                 suggested := "// Use proper logging library or remove" |};
            impact := low |}]
      else [])
  end.

(** The walk calls the visitors node after node; the first one that
    throws ends it. *)
Fixpoint callVisitors (code : string) (visits : list Visit)
  : Js.Completion (list Issue) :=
  match visits with
  | [] => Js.Normal []
  | v :: rest =>
      pushed <- visitor code v ;;
      more <- callVisitors code rest ;;
      Js.Normal (pushed ++ more)%list
  end.

(** The issue pushed by the [catch] of [analyzeJavaScript]. *)
Definition javaScriptSyntaxError (code : string) : Issue :=
  {| line := 1; column := 1;
     severity := error; category := syntax;
     title := "JavaScript Syntax Error";
     description := "Unable to parse JavaScript code";
     suggestedFix :=
       "Check for missing brackets, semicolons, or other syntax issues";
     codeSnippet := {| original := Js.substringTo 50 code; suggested := "" |};
     impact := high |}.

(** The issue of the degraded result of [analyzeCode]. *)
Definition parsingError (code : string) : Issue :=
  {| line := 1; column := 1;
     severity := error; category := syntax;
     title := "Parsing Error";
     description :=
       "Unable to parse the code. Please check for syntax errors.";
     suggestedFix := "Review the code for syntax errors and try again.";
     codeSnippet := {| original := Js.substringTo 100 code; suggested := "" |};
     impact := high |}.

Section Orchestrator.

(** The parser and the tree walker: [parse] builds a tree or throws;
    [traverse] gives the nodes that the walk hands to the visitors, or
    throws on the way. *)
Variable Ast : Type.
Variable parse : string -> Js.Completion Ast.
Variable traverse : Ast -> Js.Completion (list Visit).

(** The [try] block of [analyzeJavaScript]: the issues collected by the
    visitors, assigned to [analysis.issues] once the walk is over. *)
Definition analyzeJavaScript_try (code : string) (analysis : AnalysisResult)
  : Js.Completion AnalysisResult :=
  ast <- parse code ;;
  visits <- traverse ast ;;
  issues <- callVisitors code visits ;;
  Js.Normal (setIssues analysis issues).

(** The [catch] block pushes onto the list that [analysis] holds. *)
Definition analyzeJavaScript (code : string) (analysis : AnalysisResult)
  : AnalysisResult :=
  Js.tryCatch (analyzeJavaScript_try code analysis)
    (fun _ => setIssues analysis (issues analysis ++ [javaScriptSyntaxError code])).

(** The [switch] on the lower-cased language tag. *)
Definition dispatch (tag : string) (code : string) (analysis : AnalysisResult)
  : AnalysisResult :=
  if String.eqb tag "javascript" || String.eqb tag "jsx"
  then analyzeJavaScript code analysis
  else if String.eqb tag "python" then analyzePython code analysis
  else if String.eqb tag "java" then analyzeJava code analysis
  else if String.eqb tag "cpp" || String.eqb tag "c++"
  then analyzeCpp code analysis
  else analyzeGeneric code analysis.

(** The [try] block of [analyzeCode]. *)
Definition analyzeCode_try (code : string) (language : Js.Value)
  : Js.Completion AnalysisResult :=
  let analysis :=
    {| issues := [];
       metrics := {| linesOfCode := 0; complexity := 0;
                     maintainabilityIndex := 0; technicalDebt := 0;
                     overallScore := 0 |} |} in
  let analysis := setLinesOfCode analysis (countLinesOfCode code) in
  let analysis := setComplexity analysis (calculateComplexity code language) in
  let analysis :=
    setMaintainabilityIndex analysis
      (calculateMaintainabilityIndex code language) in
  tag <- Js.toLowerCase language ;;
  let analysis := dispatch tag code analysis in
  let analysis :=
    setOverallScore analysis (calculateOverallScore (issues analysis)) in
  Js.Normal analysis.

(** The result returned by the [catch] block of [analyzeCode], for a
    text: building it calls [code.substring] and [countLinesOfCode(code)],
    which are defined on a text only (see [analyzeCodeCall]). *)
Definition degraded (code : string) : AnalysisResult :=
  {| issues := [parsingError code];
     metrics := {| linesOfCode := countLinesOfCode code;
                   complexity := 1;
                   maintainabilityIndex := 50;
                   technicalDebt := 0;
                   overallScore := 30 |} |}.

(** [analyzeCode] on a text. *)
Definition analyzeCode (code : string) (language : Js.Value) : AnalysisResult :=
  Js.tryCatch (analyzeCode_try code language) (fun _ => degraded code).

(** [analyzeCode] as a caller reaches it, with whatever value the request
    carries for the text.  The first statement of the [try] block,
    [countLinesOfCode(code)], calls [code.split]: on a value that is not a
    string it throws, and from there on the value is a text.  The [catch]
    block builds its result from [code.substring(0, 100)] and from
    [countLinesOfCode(code)]: on a value that is not a string it throws in
    its turn, and the promise is rejected. *)
Definition analyzeCodeCall (code language : Js.Value)
  : Js.Completion AnalysisResult :=
  Js.tryCatchThrowing
    (text <- Js.stringMethod "split" code ;;
     analyzeCode_try text language)
    (fun _ =>
       original <- Js.stringMethod "substring" code ;;
       text <- Js.stringMethod "split" code ;;
       Js.Normal (degraded text)).

End Orchestrator.

Arguments analyzeCode {Ast} parse traverse code language.
Arguments analyzeCodeCall {Ast} parse traverse code language.
Arguments analyzeCode_try {Ast} parse traverse code language.
Arguments analyzeJavaScript {Ast} parse traverse code analysis.
Arguments analyzeJavaScript_try {Ast} parse traverse code analysis.
Arguments dispatch {Ast} parse traverse tag code analysis.

End CodeAnalyzer.

(** ** backend/models/CodeReview.js *)

Module CodeReview.

(** The fields of a review document that the score reads or writes. *)
Record Document := {
  language : string;
  code : string;
  issues : list Issue;
  metrics : Metrics
}.

(** The running score after the [forEach] of the method. *)
Definition scoreLoop (l : list Issue) : Z :=
  fold_left
    (fun score issue =>
       match severity issue with
       | error => score - 15
       | warning => score - 10
       | info => score - 5
       | suggestion => score - 2
       end)
    l 100.

Definition calculateOverallScore (this : Document) : Z :=
  if (List.length (issues this) =? 0)%nat then 100
  else
    let score := scoreLoop (issues this) in
    Z.max 0 score.

(** *** getSummary *)

(** [severityCounts]: an object with the four severities as keys. *)
Record SeverityCounts := {
  errorCount : Z;
  warningCount : Z;
  infoCount : Z;
  suggestionCount : Z
}.

(** [severityCounts[issue.severity]++] *)
Definition incrementSeverity (s : Severity) (c : SeverityCounts)
  : SeverityCounts :=
  match s with
  | error =>
      {| errorCount := errorCount c + 1; warningCount := warningCount c;
         infoCount := infoCount c; suggestionCount := suggestionCount c |}
  | warning =>
      {| errorCount := errorCount c; warningCount := warningCount c + 1;
         infoCount := infoCount c; suggestionCount := suggestionCount c |}
  | info =>
      {| errorCount := errorCount c; warningCount := warningCount c;
         infoCount := infoCount c + 1; suggestionCount := suggestionCount c |}
  | suggestion =>
      {| errorCount := errorCount c; warningCount := warningCount c;
         infoCount := infoCount c; suggestionCount := suggestionCount c + 1 |}
  end.

Definition category_eqb (a b : Category) : bool :=
  match a, b with
  | syntax, syntax | style, style | performance, performance
  | security, security | maintainability, maintainability
  | best_practice, best_practice => true
  | _, _ => false
  end.

(** [categoryCounts]: an object that starts empty and gets its keys as the
    categories come; the keys are kept in the order of their first
    assignment. *)
Definition CategoryCounts := list (Category * Z).

(** [categoryCounts[key]]: [None] for [undefined]. *)
Fixpoint getCount (key : Category) (m : CategoryCounts) : option Z :=
  match m with
  | [] => None
  | (k, v) :: rest => if category_eqb k key then Some v else getCount key rest
  end.

(** [categoryCounts[key] = v] *)
Fixpoint setCount (key : Category) (v : Z) (m : CategoryCounts)
  : CategoryCounts :=
  match m with
  | [] => [(key, v)]
  | (k, w) :: rest =>
      if category_eqb k key then (k, v) :: rest
      else (k, w) :: setCount key v rest
  end.

(** [x || 0] on a count: [undefined] and 0 are falsy. *)
Definition orZero (o : option Z) : Z :=
  match o with
  | Some v => if v =? 0 then 0 else v
  | None => 0
  end.

Record Summary := {
  totalIssues : Z;
  severityCounts : SeverityCounts;
  categoryCounts : CategoryCounts;
  summaryOverallScore : Z
}.

(** The two objects after the [forEach] of [getSummary]. *)
Definition countLoop (l : list Issue) : SeverityCounts * CategoryCounts :=
  fold_left
    (fun (counts : SeverityCounts * CategoryCounts) issue =>
       let (severityCounts, categoryCounts) := counts in
       (incrementSeverity (severity issue) severityCounts,
        setCount (category issue)
          (orZero (getCount (category issue) categoryCounts) + 1)
          categoryCounts))
    l
    ({| errorCount := 0; warningCount := 0; infoCount := 0;
        suggestionCount := 0 |}, []).

(** [overallScore: this.metrics.overallScore || this.calculateOverallScore()]:
    a stored score of 0 is falsy, as a missing one would be. *)
Definition getSummary (this : Document) : Summary :=
  let (severityCounts, categoryCounts) := countLoop (issues this) in
  {| totalIssues := Z.of_nat (List.length (issues this));
     severityCounts := severityCounts;
     categoryCounts := categoryCounts;
     summaryOverallScore :=
       if overallScore (metrics this) =? 0 then calculateOverallScore this
       else overallScore (metrics this) |}.

End CodeReview.

(** ** backend/routes/review.js

    [processCodeAnalysis] loads the review and the user, runs the analysis
    and saves what follows.  The part embedded is the one that writes the
    analysis into the review record and derives the points from it; the
    database calls, the badges and the progress records are not. *)

Module ReviewRoute.

(** "Update review with results": the issues of the analysis (the
    educational texts merged into them touch no field carried here), its
    metrics, then the score recomputed by the record itself. *)
Definition updateWithResults (review : CodeReview.Document)
  (analysis : AnalysisResult) : CodeReview.Document :=
  let review :=
    {| CodeReview.language := CodeReview.language review;
       CodeReview.code := CodeReview.code review;
       CodeReview.issues := map (fun issue => issue) (issues analysis);
       CodeReview.metrics := CodeReview.metrics review |} in
  let review :=
    {| CodeReview.language := CodeReview.language review;
       CodeReview.code := CodeReview.code review;
       CodeReview.issues := CodeReview.issues review;
       CodeReview.metrics := metrics analysis |} in
  {| CodeReview.language := CodeReview.language review;
     CodeReview.code := CodeReview.code review;
     CodeReview.issues := CodeReview.issues review;
     CodeReview.metrics :=
       {| linesOfCode := linesOfCode (CodeReview.metrics review);
          complexity := complexity (CodeReview.metrics review);
          maintainabilityIndex :=
            maintainabilityIndex (CodeReview.metrics review);
          technicalDebt := technicalDebt (CodeReview.metrics review);
          overallScore := CodeReview.calculateOverallScore review |} |}.

(** [Math.floor(review.metrics.overallScore / 10)] *)
Definition pointsEarned (review : CodeReview.Document) : Z :=
  overallScore (CodeReview.metrics review) / 10.

(** The review as [processCodeAnalysis] leaves it for a submitted text. *)
Definition processCodeAnalysis {Ast : Type}
  (parse : string -> Js.Completion Ast)
  (traverse : Ast -> Js.Completion (list Visit))
  (review : CodeReview.Document) (code : string) (language : Js.Value)
  : CodeReview.Document :=
  let analysis := CodeAnalyzer.analyzeCode parse traverse code language in
  updateWithResults review analysis.

End ReviewRoute.

(** ** The properties as the specification words them *)

Module Spec.

(** Penalty by severity: error 20, warning 10, info 5, suggestion 2. *)
Definition penalty (s : Severity) : Z :=
  match s with
  | error => 20
  | warning => 10
  | info => 5
  | suggestion => 2
  end.

(** Sum of the per-issue penalties. *)
Fixpoint totalPenalty (l : list Issue) : Z :=
  match l with
  | [] => 0
  | i :: rest => penalty (severity i) + totalPenalty rest
  end.

(** Start at 100, subtract the penalties, never below 0. *)
Definition score (l : list Issue) : Z := Z.max 0 (100 - totalPenalty l).

Definition wordBefore (prev : option ascii) : bool :=
  match prev with
  | Some c => Js.isWordChar c
  | None => false
  end.

Definition wordFirst (s : string) : bool :=
  match s with
  | String c _ => Js.isWordChar c
  | EmptyString => false
  end.

(** Occurrences of [kw] as a whole word: no word character right before
    it and none right after it. *)
Fixpoint wholeWordOccurrences (kw : string) (prev : option ascii) (s : string)
  : Z :=
  match s with
  | EmptyString => 0
  | String c r =>
      (if String.prefix kw s && negb (wordBefore prev)
          && negb (wordFirst (Js.substringFrom (String.length kw) s))
       then 1 else 0)
      + wholeWordOccurrences kw (Some c) r
  end.

(** Occurrences of the token [tok], from left to right, none overlapping
    the one before. *)
Fixpoint tokenOccurrences (tok : string) (skip : nat) (s : string) : Z :=
  match s with
  | EmptyString => 0
  | String _ r =>
      match skip with
      | S skip' => tokenOccurrences tok skip' r
      | O =>
          if String.prefix tok s
          then 1 + tokenOccurrences tok (String.length tok - 1) r
          else tokenOccurrences tok 0 r
      end
  end.

(** Base 1, plus the whole-word occurrences of the seven keywords, plus
    the exact-token occurrences of the two operators, capped at 20. *)
Definition calculateComplexity (code : string) : Z :=
  let words :=
    fold_right (fun kw n => wholeWordOccurrences kw None code + n) 0
      ["if"; "else"; "for"; "while"; "switch"; "case"; "catch"] in
  let operators :=
    tokenOccurrences "&&" 0 code + tokenOccurrences "||" 0 code in
  Z.min 20 (1 + (words + operators)).

(** [x] clamped into [lo, hi]. *)
Definition clamp (lo hi x : Q) : Q :=
  if Qlt_le_dec x lo then lo
  else if Qlt_le_dec hi x then hi
  else x.

(** 100 - 2 x complexity - 0.1 x linesOfCode, clamped into [0, 100]. *)
Definition maintainabilityIndex (complexity loc : Z) : Q :=
  clamp 0 100 (100 - 2 * inject_Z complexity - 0.1 * inject_Z loc)%Q.

(** Number of spaces a line begins with. *)
Fixpoint leadingSpaces (line_ : string) : nat :=
  match line_ with
  | String c r => if Ascii.eqb c " " then S (leadingSpaces r) else O
  | EmptyString => O
  end.

(** The persisted record's table: error 15, warning 10, info 5,
    suggestion 2, by the number of issues of each severity. *)
Definition recordScore (l : list Issue) : Z :=
  Z.max 0 (100 - 15 * countSeverity error l - 10 * countSeverity warning l
           - 5 * countSeverity info l - 2 * countSeverity suggestion l).

End Spec.

(** ** Sample inputs *)

Definition newline : string := String "010"%char EmptyString.

(** Five lines, an [if] on each. *)
Definition fiveIfs : string :=
  "if" ++ newline ++ "if" ++ newline ++ "if" ++ newline ++ "if" ++ newline
  ++ "if".

(** A parser that rejects its input, and a walk over a tree without any
    node of the four visited kinds. *)
Definition rejectingParse (code : string) : Js.Completion unit :=
  Js.Throw (Js.SyntaxError "Unexpected token").

Definition emptyTraverse (ast : unit) : Js.Completion (list Visit) :=
  Js.Normal [].

Definition sampleIssue (s : Severity) (c : Category) (t : string) : Issue :=
  {| line := 1; column := 1; severity := s; category := c; title := t;
     description := t; suggestedFix := t;
     codeSnippet := {| original := ""; suggested := "" |};
     impact := low |}.

Definition sampleReview (l : list Issue) : CodeReview.Document :=
  {| CodeReview.language := "javascript";
     CodeReview.code := "var x = 1";
     CodeReview.issues := l;
     CodeReview.metrics :=
       {| linesOfCode := 1; complexity := 1; maintainabilityIndex := 0;
          technicalDebt := 0; overallScore := 0 |} |}.

(** ** Counting, for the statements below *)

Definition countCategory (c : Category) (l : list Issue) : Z :=
  Z.of_nat
    (List.length (filter (fun i => CodeReview.category_eqb (category i) c) l)).

(** Sum of the values of a [categoryCounts] object. *)
Fixpoint sumCounts (m : CodeReview.CategoryCounts) : Z :=
  match m with
  | [] => 0
  | (_, v) :: rest => v + sumCounts rest
  end.

(** The text starts a whole-word occurrence of [kw] at index [i]: [kw] is
    there, between two word boundaries. *)
Definition wordOccurrenceAt (kw s : string) (i : nat) : bool :=
  RegExp.isWordBoundary s i
  && String.eqb (String.substring i (String.length kw) s) kw
  && RegExp.isWordBoundary s (i + String.length kw).

(** The pattern [\bkw\b] for a keyword without pattern syntax. *)
Definition keywordPattern (kw : string) : RegExp.Node :=
  RegExp.Seq RegExp.WordBoundary
    (fold_right (fun c r => RegExp.Seq (RegExp.Char c) r)
       (RegExp.Seq RegExp.WordBoundary RegExp.Empty)
       (list_ascii_of_string kw)).

Fixpoint allWordChars (s : string) : bool :=
  match s with
  | EmptyString => true
  | String c r => Js.isWordChar c && allWordChars r
  end.

Fixpoint allWhiteSpace (s : string) : bool :=
  match s with
  | EmptyString => true
  | String c r => Js.isWhiteSpace c && allWhiteSpace r
  end.

(** The condition that no line meets. *)
Definition never (l : string) : bool := false.

(** A parser that accepts its input; the walk over the tree of the text
    [var x = 1], which meets one variable declaration; a walk that throws. *)
Definition acceptingParse (code : string) : Js.Completion unit :=
  Js.Normal tt.

Definition varTraverse (ast : unit) : Js.Completion (list Visit) :=
  Js.Normal
    [VariableDeclaration "var" (Some {| startLine := 1; startColumn := 0 |})
       0 9].

Definition throwingTraverse (ast : unit) : Js.Completion (list Visit) :=
  Js.Throw (Js.OtherError "Duplicate declaration").

(** Number of indices among [i], [i+1], ... ([n] of them) that meet [p]. *)
Fixpoint countFrom (p : nat -> bool) (i n : nat) : nat :=
  match n with
  | O => O
  | S n' => (if p i then 1 else 0) + countFrom p (S i) n'
  end.

(** All characters of the keyword are word characters, or none is. *)
Fixpoint homogeneous (kw : string) : bool :=
  match kw with
  | String c ((String c' _) as r) =>
      Bool.eqb (Js.isWordChar c) (Js.isWordChar c') && homogeneous r
  | _ => true
  end.

Fixpoint lastChar (s : string) : option ascii :=
  match s with
  | EmptyString => None
  | String c EmptyString => Some c
  | String _ r => lastChar r
  end.

(** * Theorems *)

(** ** The scoring function *)

Section Scoring.

Import CodeAnalyzer.

Lemma penalty_nonneg (s : Severity) : 0 <= Spec.penalty s.
Proof. destruct s; simpl; lia. Qed.

Lemma totalPenalty_nonneg (l : list Issue) : 0 <= Spec.totalPenalty l.
Proof.
  induction l as [|i l IH]; cbn [Spec.totalPenalty].
  - lia.
  - pose proof (penalty_nonneg (severity i)). lia.
Qed.

(** The loop subtracts, whatever the score it starts from. *)
Lemma analyzer_loop_from (l : list Issue) :
  forall acc,
    fold_left
      (fun score issue =>
         match severity issue with
         | error => score - 20
         | warning => score - 10
         | info => score - 5
         | suggestion => score - 2
         end) l acc
    = acc - Spec.totalPenalty l.
Proof.
  induction l as [|i l IH]; intros acc; cbn [fold_left Spec.totalPenalty].
  - lia.
  - rewrite IH. destruct (severity i); cbn [Spec.penalty]; lia.
Qed.

Lemma scoreLoop_totalPenalty (l : list Issue) :
  scoreLoop l = 100 - Spec.totalPenalty l.
Proof. unfold scoreLoop. apply analyzer_loop_from. Qed.

Lemma calculateOverallScore_range (l : list Issue) :
  0 <= calculateOverallScore l <= 100.
Proof.
  unfold calculateOverallScore. rewrite scoreLoop_totalPenalty.
  pose proof (totalPenalty_nonneg l). lia.
Qed.

Lemma totalPenalty_Permutation (l l' : list Issue) :
  Permutation l l' -> Spec.totalPenalty l = Spec.totalPenalty l'.
Proof.
  induction 1 as [| x l l' _ IH | x y l | l l' l'' _ IH1 _ IH2];
    cbn [Spec.totalPenalty].
  - reflexivity.
  - now rewrite IH.
  - lia.
  - now rewrite IH1.
Qed.

Lemma countSeverity_nil (s : Severity) : countSeverity s [] = 0.
Proof. reflexivity. Qed.

Lemma countSeverity_cons (s : Severity) (i : Issue) (l : list Issue) :
  countSeverity s (i :: l)
  = (if severity_eqb (severity i) s then 1 else 0) + countSeverity s l.
Proof.
  unfold countSeverity. cbn [filter].
  destruct (severity_eqb (severity i) s); cbn [List.length]; lia.
Qed.

Lemma countSeverity_nonneg (s : Severity) (l : list Issue) :
  0 <= countSeverity s l.
Proof. unfold countSeverity. lia. Qed.

(** The penalty sum, regrouped by severity. *)
Lemma totalPenalty_by_severity (l : list Issue) :
  Spec.totalPenalty l
  = 20 * countSeverity error l + 10 * countSeverity warning l
    + 5 * countSeverity info l + 2 * countSeverity suggestion l.
Proof.
  induction l as [|i l IH].
  - reflexivity.
  - rewrite !countSeverity_cons. cbn [Spec.totalPenalty]. rewrite IH.
    destruct (severity i); cbn [Spec.penalty severity_eqb]; lia.
Qed.

Lemma record_loop_from (l : list Issue) :
  forall acc,
    fold_left
      (fun score issue =>
         match severity issue with
         | error => score - 15
         | warning => score - 10
         | info => score - 5
         | suggestion => score - 2
         end) l acc
    = acc - 15 * countSeverity error l - 10 * countSeverity warning l
      - 5 * countSeverity info l - 2 * countSeverity suggestion l.
Proof.
  induction l as [|i l IH]; intros acc.
  - cbn [fold_left]. rewrite !countSeverity_nil. lia.
  - cbn [fold_left]. rewrite IH, !countSeverity_cons.
    destruct (severity i); cbn [severity_eqb]; lia.
Qed.

Lemma record_scoreLoop_counts (l : list Issue) :
  CodeReview.scoreLoop l
  = 100 - 15 * countSeverity error l - 10 * countSeverity warning l
    - 5 * countSeverity info l - 2 * countSeverity suggestion l.
Proof. unfold CodeReview.scoreLoop. apply record_loop_from. Qed.

Lemma record_score_counts (this : CodeReview.Document) :
  CodeReview.calculateOverallScore this
  = Spec.recordScore (CodeReview.issues this).
Proof.
  unfold CodeReview.calculateOverallScore, Spec.recordScore.
  destruct (CodeReview.issues this) as [|i l] eqn:E.
  - reflexivity.
  - simpl Nat.eqb. cbv iota. now rewrite record_scoreLoop_counts.
Qed.

(** C3. For every issue list the scoring function returns
    max(0, 100 - sum of the per-issue penalties), the penalty being 20 for
    an error, 10 for a warning, 5 for an info and 2 for a suggestion; the
    result is never below 0 and never above 100. *)
Theorem calculateOverallScore_penalty_sum (l : list Issue) :
  calculateOverallScore l = Z.max 0 (100 - Spec.totalPenalty l)
  /\ calculateOverallScore l = Spec.score l
  /\ 0 <= calculateOverallScore l <= 100.
Proof.
  split; [|split].
  - unfold calculateOverallScore. now rewrite scoreLoop_totalPenalty.
  - unfold calculateOverallScore, Spec.score.
    now rewrite scoreLoop_totalPenalty.
  - apply calculateOverallScore_range.
Qed.

(** C4. The score is the same for an issue list and for every permutation
    of it. *)
Theorem calculateOverallScore_permutation (l l' : list Issue) :
  Permutation l l' -> calculateOverallScore l = calculateOverallScore l'.
Proof.
  intros H. unfold calculateOverallScore.
  rewrite !scoreLoop_totalPenalty.
  now rewrite (totalPenalty_Permutation l l' H).
Qed.

(** C8. The score recomputed by the persisted record is
    max(0, 100 - 15 #error - 10 #warning - 5 #info - 2 #suggestion); before
    the clamp it is above the analyzer's running score by exactly 5 per
    error-severity issue, and the two scores agree on every issue list
    without an error-severity issue. *)
Theorem record_score_against_analyzer (this : CodeReview.Document) :
  let l := CodeReview.issues this in
  CodeReview.calculateOverallScore this
  = Z.max 0 (100 - 15 * countSeverity error l - 10 * countSeverity warning l
             - 5 * countSeverity info l - 2 * countSeverity suggestion l)
  /\ CodeReview.scoreLoop l - scoreLoop l = 5 * countSeverity error l
  /\ (countSeverity error l = 0 ->
      CodeReview.calculateOverallScore this = calculateOverallScore l).
Proof.
  intros l. split; [|split].
  - apply record_score_counts.
  - rewrite record_scoreLoop_counts, scoreLoop_totalPenalty,
      totalPenalty_by_severity. lia.
  - intros H. rewrite record_score_counts.
    unfold Spec.recordScore, calculateOverallScore. fold l.
    rewrite scoreLoop_totalPenalty, totalPenalty_by_severity, H. f_equal. lia.
Qed.

End Scoring.

(** The two orders of one error and one suggestion score alike. *)
Lemma calculateOverallScore_permutation_witness :
  CodeAnalyzer.calculateOverallScore
    [sampleIssue error syntax "a"; sampleIssue suggestion style "b"]
  = CodeAnalyzer.calculateOverallScore
      [sampleIssue suggestion style "b"; sampleIssue error syntax "a"].
Proof.
  apply calculateOverallScore_permutation. apply perm_swap.
Defined.

(** A record with a warning and an info, no error: both scores are 85. *)
Lemma record_score_against_analyzer_witness :
  let this :=
    sampleReview [sampleIssue warning style "a"; sampleIssue info style "b"] in
  countSeverity error (CodeReview.issues this) = 0
  /\ CodeReview.calculateOverallScore this = 85
  /\ CodeReview.calculateOverallScore this
     = CodeAnalyzer.calculateOverallScore (CodeReview.issues this).
Proof.
  intros this. split; [reflexivity|]. split; [reflexivity|].
  apply (record_score_against_analyzer this). reflexivity.
Defined.

(** ** Metric primitives *)

Section Metrics.

Import CodeAnalyzer.

Lemma calculateComplexity_unfold (code : string) (language : Js.Value) :
  calculateComplexity code language
  = Z.min (fold_left (addMatches code) complexityKeywords 1) 20.
Proof. reflexivity. Qed.

Lemma addMatches_ge (code : string) (complexity : Z) (keyword : string) :
  complexity <= addMatches code complexity keyword.
Proof.
  unfold addMatches.
  destruct (matchGlobal _ code); lia.
Qed.

Lemma keyword_loop_ge (code : string) (keywords : list string) :
  forall acc, acc <= fold_left (addMatches code) keywords acc.
Proof.
  induction keywords as [|kw kws IH]; intros acc; cbn [fold_left].
  - lia.
  - pose proof (addMatches_ge code acc kw). pose proof (IH (addMatches code acc kw)).
    lia.
Qed.

Lemma calculateComplexity_range (code : string) (language : Js.Value) :
  1 <= calculateComplexity code language <= 20.
Proof.
  rewrite calculateComplexity_unfold.
  pose proof (keyword_loop_ge code complexityKeywords 1). lia.
Qed.

Lemma calculateMaintainabilityIndex_range (code : string) (language : Js.Value) :
  (0 <= calculateMaintainabilityIndex code language
   /\ calculateMaintainabilityIndex code language <= 100)%Q.
Proof.
  unfold calculateMaintainabilityIndex. split.
  - apply Q.le_max_l.
  - apply Q.max_lub.
    + discriminate.
    + apply Q.le_min_l.
Qed.

(** *** The pattern built for the keyword [||] *)

Lemma pipe_pattern :
  RegExp.new ("\b" ++ "||" ++ "\b")
  = RegExp.Alt (RegExp.Seq RegExp.WordBoundary RegExp.Empty)
      (RegExp.Alt RegExp.Empty (RegExp.Seq RegExp.WordBoundary RegExp.Empty)).
Proof. reflexivity. Qed.

(** It is a disjunction with an empty alternative: it matches the empty
    string at every index. *)
Lemma pipe_matches_everywhere (s : string) (i : nat) :
  RegExp.matchAt (RegExp.new ("\b" ++ "||" ++ "\b")) s i = Some i.
Proof.
  rewrite pipe_pattern. unfold RegExp.matchAt. cbn [RegExp.run].
  destruct (RegExp.isWordBoundary s i); reflexivity.
Qed.

Lemma pipe_matchAllFrom (s : string) (n : nat) :
  forall i,
    List.length
      (RegExp.matchAllFrom (RegExp.new ("\b" ++ "||" ++ "\b")) s i 0 n) = n.
Proof.
  induction n as [|n IH]; intros i; cbn [RegExp.matchAllFrom].
  - reflexivity.
  - rewrite pipe_matches_everywhere.
    replace (i - i - 1)%nat with 0%nat by lia.
    cbn [List.length]. now rewrite IH.
Qed.

(** So [code.match] with it returns one match more than the text has
    characters. *)
Lemma pipe_match_count (code : string) :
  List.length (RegExp.matchAll (RegExp.new ("\b" ++ "||" ++ "\b")) code)
  = S (String.length code).
Proof. unfold RegExp.matchAll. apply pipe_matchAllFrom. Qed.

Lemma addMatches_pipe (code : string) (complexity : Z) :
  addMatches code complexity "||" = complexity + Js.length code + 1.
Proof.
  unfold addMatches, matchGlobal.
  pose proof (pipe_match_count code) as H.
  destruct (RegExp.matchAll _ code) as [|m ms].
  - discriminate H.
  - rewrite H. unfold Js.length. lia.
Qed.

(** The complexity is at least 2 plus the length of the text, up to the
    cap: a text of 18 characters or more always scores 20. *)
Lemma calculateComplexity_length (code : string) (language : Js.Value) :
  Z.min 20 (2 + Js.length code) <= calculateComplexity code language.
Proof.
  rewrite calculateComplexity_unfold.
  change complexityKeywords
    with (List.app
            ["if"; "else"; "for"; "while"; "switch"; "case"; "catch"; "&&"]
            ["||"]).
  rewrite fold_left_app.
  pose proof (keyword_loop_ge code
    ["if"; "else"; "for"; "while"; "switch"; "case"; "catch"; "&&"] 1) as H.
  set (counted := fold_left (addMatches code) _ 1) in *.
  cbn [fold_left]. rewrite addMatches_pipe. lia.
Qed.

Lemma clamp_max_min (x : Q) :
  (Qmax 0 (Qmin 100 x) == Spec.clamp 0 100 x)%Q.
Proof.
  unfold Spec.clamp.
  destruct (Qlt_le_dec x 0) as [Hlo|Hlo].
  - rewrite Q.min_r.
    + apply Q.max_l. now apply Qlt_le_weak.
    + apply Qle_trans with 0%Q; [now apply Qlt_le_weak | discriminate].
  - destruct (Qlt_le_dec 100 x) as [Hhi|Hhi].
    + rewrite Q.min_l by now apply Qlt_le_weak.
      apply Q.max_r. discriminate.
    + rewrite Q.min_r by exact Hhi. now apply Q.max_r.
Qed.

Lemma calculateMaintainabilityIndex_formula (code : string) (language : Js.Value) :
  (calculateMaintainabilityIndex code language
   == Spec.maintainabilityIndex (calculateComplexity code language)
        (countLinesOfCode code))%Q.
Proof.
  unfold calculateMaintainabilityIndex, Spec.maintainabilityIndex.
  rewrite clamp_max_min.
  assert (E : (100 - inject_Z (calculateComplexity code language) * 2
               - inject_Z (countLinesOfCode code) * 0.1
               == 100 - 2 * inject_Z (calculateComplexity code language)
                  - 0.1 * inject_Z (countLinesOfCode code))%Q) by ring.
  unfold Spec.clamp.
  destruct (Qlt_le_dec _ 0) as [H1|H1], (Qlt_le_dec _ 0) as [H2|H2];
    try reflexivity.
  - rewrite E in H1. exfalso. apply (Qlt_not_le _ _ H1 H2).
  - rewrite <- E in H2. exfalso. apply (Qlt_not_le _ _ H2 H1).
  - destruct (Qlt_le_dec 100 _) as [H3|H3], (Qlt_le_dec 100 _) as [H4|H4];
      try reflexivity.
    + rewrite E in H3. exfalso. apply (Qlt_not_le _ _ H3 H4).
    + rewrite <- E in H4. exfalso. apply (Qlt_not_le _ _ H4 H3).
    + exact E.
Qed.

End Metrics.

(** ** The Python analyzer *)

Section Python.

Import CodeAnalyzer.

(** On a line that begins with a space, [indexOf(' ')] is 0. *)
Lemma indexOf_leading_space (r : string) :
  Js.indexOf " " (String " " r) = 0.
Proof. destruct r; reflexivity. Qed.

(** The indentation condition of the source,
    [line.length > 0 && line[0] === ' ' && line.indexOf(' ') % 4 !== 0],
    holds for no line. *)
Lemma indentation_condition_false (l : string) :
  (0 <? Js.length l)
  && (match String.get 0 l with
      | Some c => Ascii.eqb c " "
      | None => false
      end)
  && negb (Z.rem (Js.indexOf " " l) 4 =? 0) = false.
Proof.
  destruct l as [|c r].
  - reflexivity.
  - cbn [String.get]. destruct (Ascii.eqb c " ") eqn:E.
    + apply Ascii.eqb_eq in E. subst c.
      rewrite indexOf_leading_space. now rewrite andb_false_r.
    + now rewrite andb_false_r.
Qed.

Lemma forEachLine_Forall (P : Issue -> Prop)
  (callback : string -> Z -> list Issue) :
  (forall l i, Forall P (callback l i)) ->
  forall lines index, Forall P (forEachLine callback lines index).
Proof.
  intros H lines. induction lines as [|l rest IH]; intros index;
    cbn [forEachLine].
  - constructor.
  - apply Forall_app. split; [apply H | apply IH].
Qed.

Lemma pythonLine_no_indentation_issue (l : string) (index : Z) :
  Forall (fun i => title i <> "Inconsistent indentation") (pythonLine l index).
Proof.
  unfold pythonLine. rewrite indentation_condition_false.
  cbn [List.app].
  apply Forall_app. split.
  - destruct (79 <? Js.length l); repeat constructor. discriminate.
  - destruct (Js.includes "print(" (Js.trim l)); repeat constructor.
    discriminate.
Qed.

(** The Python analyzer reports no indentation issue on any text. *)
Lemma analyzePython_no_indentation_issue (code : string) (a : AnalysisResult) :
  Forall (fun i => title i <> "Inconsistent indentation")
    (issues (analyzePython code a)).
Proof.
  unfold analyzePython. cbn [issues setIssues].
  apply forEachLine_Forall. apply pythonLine_no_indentation_issue.
Qed.

End Python.

(** ** The orchestrator *)

Section OrchestratorFacts.

Import CodeAnalyzer.

Context {Ast : Type}.
Variable parse : string -> Js.Completion Ast.
Variable traverse : Ast -> Js.Completion (list Visit).

(** An analyzer writes the issues and leaves the metrics alone. *)
Lemma dispatch_metrics (tag code : string) (a : AnalysisResult) :
  metrics (dispatch parse traverse tag code a) = metrics a.
Proof.
  unfold dispatch.
  destruct (String.eqb tag "javascript" || String.eqb tag "jsx").
  - unfold analyzeJavaScript, analyzeJavaScript_try.
    destruct (parse code) as [ast|e]; [|reflexivity].
    cbn [Js.bind]. destruct (traverse ast) as [visits|e]; [|reflexivity].
    cbn [Js.bind]. destruct (callVisitors code visits); reflexivity.
  - destruct (String.eqb tag "python"); [reflexivity|].
    destruct (String.eqb tag "java"); [reflexivity|].
    destruct (String.eqb tag "cpp" || String.eqb tag "c++"); reflexivity.
Qed.

(** The normal path: the language tag is a string. *)
Lemma analyzeCode_normal (code : string) (language : Js.Value) (tag : string) :
  Js.toLowerCase language = Js.Normal tag ->
  analyzeCode parse traverse code language
  = let a :=
      dispatch parse traverse tag code
        {| issues := [];
           metrics :=
             {| linesOfCode := countLinesOfCode code;
                complexity := calculateComplexity code language;
                maintainabilityIndex :=
                  calculateMaintainabilityIndex code language;
                technicalDebt := 0;
                overallScore := 0 |} |} in
    setOverallScore a (calculateOverallScore (issues a)).
Proof.
  intros H. unfold analyzeCode, analyzeCode_try. rewrite H. reflexivity.
Qed.

(** The degraded path: the [try] block threw. *)
Lemma analyzeCode_thrown (code : string) (language : Js.Value) (e : Js.Error) :
  analyzeCode_try parse traverse code language = Js.Throw e ->
  analyzeCode parse traverse code language = degraded code.
Proof.
  intros H. unfold analyzeCode. now rewrite H.
Qed.

(** The [try] block throws exactly when the tag has no [toLowerCase]. *)
Lemma analyzeCode_try_throws (code : string) (language : Js.Value)
  (e : Js.Error) :
  analyzeCode_try parse traverse code language = Js.Throw e
  <-> Js.toLowerCase language = Js.Throw e.
Proof.
  unfold analyzeCode_try.
  destruct (Js.toLowerCase language) as [tag|e']; cbn [Js.bind]; split;
    intros H; try discriminate H; injection H as ->; reflexivity.
Qed.

(** Any exception inside [analyzeJavaScript] leaves the one issue of its
    [catch] block on an analysis that had none. *)
Lemma analyzeJavaScript_caught (code : string) (a : AnalysisResult)
  (e : Js.Error) :
  analyzeJavaScript_try parse traverse code a = Js.Throw e ->
  issues a = [] ->
  issues (analyzeJavaScript parse traverse code a)
  = [javaScriptSyntaxError code].
Proof.
  intros H Ha. unfold analyzeJavaScript. rewrite H.
  cbn [Js.tryCatch issues setIssues]. now rewrite Ha.
Qed.

Lemma analyzeJavaScript_try_parse_failure (code : string) (a : AnalysisResult)
  (e : Js.Error) :
  parse code = Js.Throw e ->
  analyzeJavaScript_try parse traverse code a = Js.Throw e.
Proof.
  intros H. unfold analyzeJavaScript_try. now rewrite H.
Qed.

Lemma dispatch_javascript (tag code : string) (a : AnalysisResult) :
  tag = "javascript" \/ tag = "jsx" ->
  dispatch parse traverse tag code a = analyzeJavaScript parse traverse code a.
Proof.
  intros [H|H]; subst tag; reflexivity.
Qed.

(** The result on the parse-failure path of a JavaScript-tagged input. *)
Lemma analyzeCode_parse_failure (code : string) (language : Js.Value)
  (tag : string) (e : Js.Error) :
  Js.toLowerCase language = Js.Normal tag ->
  tag = "javascript" \/ tag = "jsx" ->
  parse code = Js.Throw e ->
  analyzeCode parse traverse code language
  = {| issues := [javaScriptSyntaxError code];
       metrics :=
         {| linesOfCode := countLinesOfCode code;
            complexity := calculateComplexity code language;
            maintainabilityIndex := calculateMaintainabilityIndex code language;
            technicalDebt := 0;
            overallScore := 80 |} |}.
Proof.
  intros Hl Ht Hp. rewrite (analyzeCode_normal code language tag Hl).
  rewrite (dispatch_javascript tag code _ Ht).
  unfold analyzeJavaScript.
  rewrite (analyzeJavaScript_try_parse_failure code _ e Hp).
  reflexivity.
Qed.

(** C1. For every source text and language tag, the metrics of the result
    of analyzeCode satisfy complexity in [1,20], maintainabilityIndex in
    [0,100] and overallScore in [0,100], on the normal path and on the
    degraded path alike. *)
Theorem analyzeCode_metrics_in_range (code : string) (language : Js.Value) :
  let m := metrics (analyzeCode parse traverse code language) in
  1 <= complexity m <= 20
  /\ (0 <= maintainabilityIndex m /\ maintainabilityIndex m <= 100)%Q
  /\ 0 <= overallScore m <= 100.
Proof.
  destruct (Js.toLowerCase language) as [tag|e] eqn:E.
  - rewrite (analyzeCode_normal code language tag E).
    cbv zeta. unfold setOverallScore.
    cbn [metrics complexity maintainabilityIndex overallScore].
    rewrite dispatch_metrics.
    cbn [metrics complexity maintainabilityIndex overallScore].
    split; [apply calculateComplexity_range|].
    split; [apply calculateMaintainabilityIndex_range|].
    apply calculateOverallScore_range.
  - apply (proj2 (analyzeCode_try_throws code language e)) in E.
    rewrite (analyzeCode_thrown code language e E).
    cbn. repeat split; try lia; discriminate.
Qed.

(** On a text: when the [try] block throws, analyzeCode returns a result
    with exactly one issue, of severity error and category syntax;
    linesOfCode counted from the text; complexity 1, maintainabilityIndex
    50 and overallScore 30, the fixed defaults, where the scoring function
    would give that issue 80. *)
Lemma analyzeCode_degraded_defaults (code : string) (language : Js.Value)
  (e : Js.Error) :
  analyzeCode_try parse traverse code language = Js.Throw e ->
  let r := analyzeCode parse traverse code language in
  (exists i, issues r = [i] /\ severity i = error /\ category i = syntax)
  /\ linesOfCode (metrics r) = countLinesOfCode code
  /\ complexity (metrics r) = 1
  /\ maintainabilityIndex (metrics r) = 50%Q
  /\ overallScore (metrics r) = 30
  /\ calculateOverallScore (issues r) = 80.
Proof.
  intros H r. subst r. rewrite (analyzeCode_thrown code language e H).
  split.
  - exists (parsingError code). repeat split.
  - repeat split.
Qed.

(** On a text the call is [analyzeCode]. *)
Lemma analyzeCodeCall_text (text : string) (language : Js.Value) :
  analyzeCodeCall parse traverse (Js.Str text) language
  = Js.Normal (analyzeCode parse traverse text language).
Proof.
  unfold analyzeCodeCall, analyzeCode. cbn [Js.stringMethod Js.bind].
  destruct (analyzeCode_try parse traverse text language); reflexivity.
Qed.

(** On a value that is not a string the call is rejected, whatever the
    language tag. *)
Lemma analyzeCodeCall_rejects (code language : Js.Value) :
  (forall text, code <> Js.Str text) ->
  exists e, analyzeCodeCall parse traverse code language = Js.Throw e.
Proof.
  intros H. destruct code as [| |n|text].
  - eexists. reflexivity.
  - eexists. reflexivity.
  - eexists. reflexivity.
  - now elim (H text).
Qed.

(** C2. analyzeCode is specified to return its degraded result, and never
    to let the error out, whenever an exception is thrown during the
    metric computation or the dispatch.  With the number 5 for the text, a
    value that the review route passes on from the request body, the
    metric computation throws ([code.split] is not a function), and the
    [catch] block throws in its turn when it evaluates
    [code.substring(0, 100)]: the call is rejected.  An exception of the
    dispatch on a text is caught as specified. *)
Theorem analyzeCode_rejects_non_string_text (language : Js.Value) :
  (text <- Js.stringMethod "split" (Js.Number 5) ;;
   analyzeCode_try parse traverse text language)
  = Js.Throw (Js.TypeError "code.split is not a function")
  /\ analyzeCodeCall parse traverse (Js.Number 5) language
     = Js.Throw (Js.TypeError "code.substring is not a function")
  /\ (forall text,
        analyzeCodeCall parse traverse (Js.Str text) Js.Undefined
        = Js.Normal (degraded text)).
Proof.
  split; [reflexivity|]. split; [reflexivity|].
  intros text. rewrite analyzeCodeCall_text. reflexivity.
Qed.

(** C9. For a JavaScript-tagged input on which the parser fails while the
    orchestrator does not throw, the issues of the result are exactly one
    issue, of severity error and category syntax. *)
Theorem analyzeCode_parse_failure_issues (code : string) (language : Js.Value)
  (tag : string) (e : Js.Error) :
  Js.toLowerCase language = Js.Normal tag ->
  tag = "javascript" \/ tag = "jsx" ->
  parse code = Js.Throw e ->
  let r := analyzeCode parse traverse code language in
  analyzeCode_try parse traverse code language = Js.Normal r
  /\ exists i, issues r = [i] /\ severity i = error /\ category i = syntax.
Proof.
  intros Hl Ht Hp r. subst r. split.
  - unfold analyzeCode.
    destruct (analyzeCode_try parse traverse code language) as [a|e'] eqn:E.
    + reflexivity.
    + apply analyzeCode_try_throws in E. rewrite Hl in E. discriminate E.
  - rewrite (analyzeCode_parse_failure code language tag e Hl Ht Hp).
    exists (javaScriptSyntaxError code). repeat split.
Qed.

(** C10. On the JavaScript parse-failure path the metrics are those of the
    normal path: linesOfCode, complexity and maintainabilityIndex are the
    metric primitives applied to the input, and overallScore is the scoring
    function applied to the single syntax-error issue, which is 80 and not
    the 30 of the degraded result. *)
Theorem analyzeCode_parse_failure_metrics (code : string) (language : Js.Value)
  (tag : string) (e : Js.Error) :
  Js.toLowerCase language = Js.Normal tag ->
  tag = "javascript" \/ tag = "jsx" ->
  parse code = Js.Throw e ->
  let r := analyzeCode parse traverse code language in
  linesOfCode (metrics r) = countLinesOfCode code
  /\ complexity (metrics r) = calculateComplexity code language
  /\ maintainabilityIndex (metrics r)
     = calculateMaintainabilityIndex code language
  /\ overallScore (metrics r) = calculateOverallScore (issues r)
  /\ overallScore (metrics r) = 80
  /\ overallScore (metrics r) <> overallScore (metrics (degraded code)).
Proof.
  intros Hl Ht Hp r. subst r.
  rewrite (analyzeCode_parse_failure code language tag e Hl Ht Hp).
  cbn [metrics issues linesOfCode complexity maintainabilityIndex overallScore
       degraded].
  repeat split. discriminate.
Qed.

End OrchestratorFacts.

(** ** Evaluations *)

Section Evaluations.

Import CodeAnalyzer.

(** C5. calculateComplexity is specified as min(20, 1 + N), N the
    whole-word occurrences of if, else, for, while, switch, case, catch
    plus the exact-token occurrences of && and ||, an && between spaces
    counting.  The code returns 8 on the text "a && b", where that is 2:
    the pattern built for && matches nothing there, and the pattern built
    for || matches at each of the 7 indices.  On the empty text the code
    returns 2, where that is 1. *)
Theorem calculateComplexity_operator_patterns (language : Js.Value) :
  RegExp.matchAll (RegExp.new ("\b" ++ "&&" ++ "\b")) "a && b" = []
  /\ List.length (RegExp.matchAll (RegExp.new ("\b" ++ "||" ++ "\b")) "a && b")
     = 7%nat
  /\ calculateComplexity "a && b" language = 8
  /\ Spec.calculateComplexity "a && b" = 2
  /\ calculateComplexity "" language = 2
  /\ Spec.calculateComplexity "" = 1.
Proof. repeat split. Qed.

(** C6. The Python analyzer is specified to report 'Inconsistent
    indentation' on every line that begins with a space and whose
    leading-space count is not a multiple of 4.  The line "  x" begins with
    two spaces, and the analysis of it reports no issue at all. *)
Theorem analyzePython_two_space_line :
  String.get 0 "  x" = Some " "%char
  /\ Spec.leadingSpaces "  x" = 2%nat
  /\ (Spec.leadingSpaces "  x" mod 4 <> 0)%nat
  /\ forall (Ast : Type) (parse : string -> Js.Completion Ast)
       (traverse : Ast -> Js.Completion (list Visit)),
       issues (analyzeCode parse traverse "  x" (Js.Str "python")) = [].
Proof.
  split; [reflexivity|]. split; [reflexivity|]. split; [discriminate|].
  intros Ast parse traverse. reflexivity.
Qed.

(** C7. calculateMaintainabilityIndex is 100 - 2 x complexity - 0.1 x
    linesOfCode clamped into [0,100], for every text.  On five lines with
    one if each, specified to give complexity 6 and index 87.5, the code
    gives complexity 20 and index 59.5. *)
Theorem calculateMaintainabilityIndex_five_ifs (language : Js.Value) :
  (forall code,
     calculateMaintainabilityIndex code language
     == Spec.maintainabilityIndex (calculateComplexity code language)
          (countLinesOfCode code))%Q
  /\ countLinesOfCode fiveIfs = 5
  /\ Spec.wholeWordOccurrences "if" None fiveIfs = 5
  /\ Spec.calculateComplexity fiveIfs = 6
  /\ (Spec.maintainabilityIndex 6 5 == 87.5)%Q
  /\ calculateComplexity fiveIfs language = 20
  /\ (calculateMaintainabilityIndex fiveIfs language == 59.5)%Q
  /\ ~ (calculateMaintainabilityIndex fiveIfs language == 87.5)%Q.
Proof.
  split.
  - intros code. apply calculateMaintainabilityIndex_formula.
  - repeat split. discriminate.
Qed.

End Evaluations.

(** A call without a language tag takes the degraded path. *)
Lemma analyzeCode_degraded_defaults_witness :
  let r :=
    CodeAnalyzer.analyzeCode rejectingParse emptyTraverse "var x = 1"
      Js.Undefined in
  CodeAnalyzer.analyzeCode_try rejectingParse emptyTraverse "var x = 1"
    Js.Undefined
  = Js.Throw (Js.TypeError "Cannot read properties of undefined")
  /\ linesOfCode (metrics r) = 1
  /\ overallScore (metrics r) = 30.
Proof.
  intros r. split; [reflexivity|].
  destruct (analyzeCode_degraded_defaults rejectingParse emptyTraverse
              "var x = 1" Js.Undefined
              (Js.TypeError "Cannot read properties of undefined")
              eq_refl) as (_ & Hloc & _ & _ & Hscore & _).
  split; [exact Hloc | exact Hscore].
Defined.

(** An unbalanced function head, rejected by the parser. *)
Lemma analyzeCode_parse_failure_issues_witness :
  rejectingParse "function f( {"
  = Js.Throw (Js.SyntaxError "Unexpected token")
  /\ exists i,
       issues (CodeAnalyzer.analyzeCode rejectingParse emptyTraverse
                 "function f( {" (Js.Str "JavaScript")) = [i]
       /\ severity i = error /\ category i = syntax.
Proof.
  split; [reflexivity|].
  apply (analyzeCode_parse_failure_issues rejectingParse emptyTraverse
           "function f( {" (Js.Str "JavaScript") "javascript"
           (Js.SyntaxError "Unexpected token") eq_refl (or_introl eq_refl)
           eq_refl).
Defined.

Lemma analyzeCode_parse_failure_metrics_witness :
  rejectingParse "function f( {"
  = Js.Throw (Js.SyntaxError "Unexpected token")
  /\ overallScore
       (metrics (CodeAnalyzer.analyzeCode rejectingParse emptyTraverse
                   "function f( {" (Js.Str "jsx"))) = 80.
Proof.
  split; [reflexivity|].
  apply (analyzeCode_parse_failure_metrics rejectingParse emptyTraverse
           "function f( {" (Js.Str "jsx") "jsx"
           (Js.SyntaxError "Unexpected token") eq_refl (or_intror eq_refl)
           eq_refl).
Defined.

(** * Further properties of the code *)

(** ** Scoring *)

Section ScoringFurther.

Import CodeAnalyzer.

Lemma penalty_pos (s : Severity) : 0 < Spec.penalty s.
Proof. destruct s; cbn [Spec.penalty]; lia. Qed.

Lemma totalPenalty_app (l l' : list Issue) :
  Spec.totalPenalty (l ++ l')%list = Spec.totalPenalty l + Spec.totalPenalty l'.
Proof.
  induction l as [|i l IH]; cbn [List.app Spec.totalPenalty].
  - lia.
  - rewrite IH. lia.
Qed.

Lemma totalPenalty_zero (l : list Issue) :
  Spec.totalPenalty l = 0 -> l = [].
Proof.
  destruct l as [|i l]; [reflexivity|].
  cbn [Spec.totalPenalty]. intros H.
  pose proof (penalty_pos (severity i)). pose proof (totalPenalty_nonneg l).
  lia.
Qed.

(** X1. More issues never raise the score: the score of a list extended by
    further issues is at most the score of the list, and at least that
    score less the penalties of the issues added. *)
Theorem calculateOverallScore_monotone (l l' : list Issue) :
  calculateOverallScore (l ++ l')%list <= calculateOverallScore l
  /\ calculateOverallScore l - Spec.totalPenalty l'
     <= calculateOverallScore (l ++ l')%list.
Proof.
  unfold calculateOverallScore. rewrite !scoreLoop_totalPenalty.
  rewrite totalPenalty_app.
  pose proof (totalPenalty_nonneg l'). lia.
Qed.

(** X2. The score is 100 exactly when there is no issue: every severity
    costs something. *)
Theorem calculateOverallScore_perfect_iff (l : list Issue) :
  calculateOverallScore l = 100 <-> l = [].
Proof.
  unfold calculateOverallScore. rewrite scoreLoop_totalPenalty. split.
  - intros H. apply totalPenalty_zero.
    pose proof (totalPenalty_nonneg l). lia.
  - intros ->. reflexivity.
Qed.

(** X3. The score is 0 exactly when the penalties reach 100, counted by
    severity: 20 per error, 10 per warning, 5 per info, 2 per suggestion. *)
Theorem calculateOverallScore_zero_iff (l : list Issue) :
  calculateOverallScore l = 0
  <-> 100 <= 20 * countSeverity error l + 10 * countSeverity warning l
             + 5 * countSeverity info l + 2 * countSeverity suggestion l.
Proof.
  unfold calculateOverallScore.
  rewrite scoreLoop_totalPenalty, totalPenalty_by_severity. lia.
Qed.

End ScoringFurther.

(** ** Lines *)

Section Lines.

Import CodeAnalyzer.

Lemma splitLines_nonempty (s : string) : Js.splitLines s <> [].
Proof.
  destruct s as [|c r]; cbn [Js.splitLines]; [discriminate|].
  destruct (Ascii.eqb c "010"); [discriminate|].
  destruct (Js.splitLines r); discriminate.
Qed.

(** Splitting a text made of two parts around a line feed: the lines of
    the first part, then the lines of the second. *)
Lemma splitLines_app (s t : string) :
  Js.splitLines (s ++ newline ++ t)
  = (Js.splitLines s ++ Js.splitLines t)%list.
Proof.
  induction s as [|c r IH].
  - reflexivity.
  - change ((String c r ++ newline ++ t)%string)
      with (String c (r ++ newline ++ t)).
    cbn [Js.splitLines]. rewrite IH.
    destruct (Ascii.eqb c "010"); [reflexivity|].
    pose proof (splitLines_nonempty r) as Hne.
    destruct (Js.splitLines r) as [|h tl]; [contradiction|]. reflexivity.
Qed.

(** X4. [split] on line feeds loses nothing and leaves no line feed:
    joining the lines with line feeds gives the text back, and there is
    one line more than there are line feeds in the text. *)
Theorem splitLines_join (s : string) :
  String.concat newline (Js.splitLines s) = s
  /\ List.length (Js.splitLines s)
     = S (List.length
            (filter (fun c => Ascii.eqb c "010") (list_ascii_of_string s))).
Proof.
  induction s as [|c r [IH1 IH2]].
  - split; reflexivity.
  - cbn [Js.splitLines list_ascii_of_string filter].
    pose proof (splitLines_nonempty r) as Hne.
    destruct (Ascii.eqb c "010") eqn:E.
    + apply Ascii.eqb_eq in E. subst c. split.
      * destruct (Js.splitLines r) as [|h tl]; [contradiction|].
        cbn [String.concat] in *. rewrite IH1. reflexivity.
      * cbn [List.length]. now rewrite IH2.
    + destruct (Js.splitLines r) as [|h tl]; [contradiction|]. split.
      * destruct tl as [|h' tl'].
        -- cbn [String.concat] in *. now rewrite IH1.
        -- cbn [String.concat] in *. cbn [String.append]. now rewrite IH1.
      * exact IH2.
Qed.

(** X5. The line count of two texts put together around a line feed is the
    sum of their line counts; the count of a text is between 0 and the
    number of its lines. *)
Theorem countLinesOfCode_additive (a b : string) :
  countLinesOfCode (a ++ newline ++ b)
  = countLinesOfCode a + countLinesOfCode b
  /\ 0 <= countLinesOfCode a <= Z.of_nat (List.length (Js.splitLines a)).
Proof.
  unfold countLinesOfCode. split.
  - rewrite splitLines_app, filter_app, length_app. lia.
  - pose proof (filter_length_le (fun l => 0 <? Js.length (Js.trim l))
                  (Js.splitLines a)). lia.
Qed.

End Lines.

(** ** Blank texts *)

Section Blank.

Import CodeAnalyzer.

Lemma trimEnd_empty_iff (s : string) :
  Js.trimEnd s = EmptyString <-> allWhiteSpace s = true.
Proof.
  induction s as [|c r IH]; cbn [Js.trimEnd allWhiteSpace].
  - split; reflexivity.
  - destruct (Js.trimEnd r) as [|c' r'] eqn:E.
    + destruct (Js.isWhiteSpace c); cbn [andb].
      * split; intros _; [now apply IH | reflexivity].
      * split; discriminate.
    + split; [discriminate|]. intros H.
      apply andb_prop in H as [_ H]. apply IH in H. discriminate H.
Qed.

Lemma allWhiteSpace_trimStart (s : string) :
  allWhiteSpace (Js.trimStart s) = allWhiteSpace s.
Proof.
  induction s as [|c r IH]; [reflexivity|].
  cbn [Js.trimStart]. destruct (Js.isWhiteSpace c) eqn:E.
  - rewrite IH. cbn [allWhiteSpace]. now rewrite E.
  - reflexivity.
Qed.

Lemma trim_empty_iff (s : string) :
  Js.trim s = EmptyString <-> allWhiteSpace s = true.
Proof.
  unfold Js.trim. rewrite trimEnd_empty_iff. now rewrite allWhiteSpace_trimStart.
Qed.

Lemma allWhiteSpace_splitLines (s : string) :
  forallb allWhiteSpace (Js.splitLines s) = allWhiteSpace s.
Proof.
  induction s as [|c r IH]; [reflexivity|].
  cbn [Js.splitLines allWhiteSpace].
  destruct (Ascii.eqb c "010") eqn:E.
  - apply Ascii.eqb_eq in E. subst c. cbn [forallb allWhiteSpace].
    rewrite IH. reflexivity.
  - pose proof (splitLines_nonempty r) as Hne.
    destruct (Js.splitLines r) as [|h tl]; [contradiction|].
    rewrite <- IH. cbn [forallb allWhiteSpace]. now rewrite andb_assoc.
Qed.

Lemma blank_line_filter (l : string) :
  (0 <? Js.length (Js.trim l)) = negb (allWhiteSpace l).
Proof.
  destruct (allWhiteSpace l) eqn:E.
  - apply trim_empty_iff in E. now rewrite E.
  - destruct (Js.trim l) eqn:T.
    + apply trim_empty_iff in T. congruence.
    + reflexivity.
Qed.

Lemma no_code_lines (lines : list string) :
  List.length (filter (fun l => 0 <? Js.length (Js.trim l)) lines) = 0%nat
  <-> forallb allWhiteSpace lines = true.
Proof.
  induction lines as [|l rest IH]; cbn [filter forallb].
  - split; reflexivity.
  - rewrite blank_line_filter. destruct (allWhiteSpace l); cbn [negb andb].
    + exact IH.
    + cbn [List.length]. split; discriminate.
Qed.

(** X6. A text has no line of code exactly when trimming the whole text
    leaves nothing: line feeds are white space too. *)
Theorem countLinesOfCode_zero_iff (code : string) :
  countLinesOfCode code = 0 <-> Js.trim code = EmptyString.
Proof.
  unfold countLinesOfCode. rewrite trim_empty_iff.
  rewrite <- allWhiteSpace_splitLines, <- no_code_lines. lia.
Qed.

End Blank.

(** ** The line-oriented analyzers *)

Section LineAnalyzers.

Import CodeAnalyzer.

Lemma countSeverity_app (s : Severity) (l l' : list Issue) :
  countSeverity s (l ++ l')%list = countSeverity s l + countSeverity s l'.
Proof.
  unfold countSeverity. rewrite filter_app, length_app. lia.
Qed.

(** Counting by severity over [forEach], when a line gives one issue of
    the severity for each of two conditions on its text. *)
Lemma forEachLine_count (s : Severity) (callback : string -> Z -> list Issue)
  (p q : string -> bool) :
  (forall l i,
     countSeverity s (callback l i)
     = (if p l then 1 else 0) + (if q l then 1 else 0)) ->
  forall lines index,
    countSeverity s (forEachLine callback lines index)
    = Z.of_nat (List.length (filter p lines))
      + Z.of_nat (List.length (filter q lines)).
Proof.
  intros H lines. induction lines as [|l rest IH]; intros index;
    cbn [forEachLine filter].
  - reflexivity.
  - rewrite countSeverity_app, H, IH.
    destruct (p l), (q l); cbn [List.length]; lia.
Qed.

Lemma forEachLine_line_numbers (callback : string -> Z -> list Issue) :
  (forall l i, Forall (fun x => line x = i + 1) (callback l i)) ->
  forall lines index,
    Forall (fun x => index + 1 <= line x <= index + Z.of_nat (List.length lines))
      (forEachLine callback lines index).
Proof.
  intros H lines. induction lines as [|l rest IH]; intros index;
    cbn [forEachLine].
  - constructor.
  - apply Forall_app. split.
    + eapply Forall_impl; [|apply H]. cbn beta. intros x ->.
      cbn [List.length]. lia.
    + eapply Forall_impl; [|apply IH]. cbn beta. intros x Hx.
      cbn [List.length]. lia.
Qed.

Lemma forEachLine_In (callback : string -> Z -> list Issue) (x : Issue) :
  forall lines index,
    In x (forEachLine callback lines index)
    <-> exists n l, nth_error lines n = Some l
                    /\ In x (callback l (index + Z.of_nat n)).
Proof.
  intros lines. induction lines as [|l rest IH]; intros index;
    cbn [forEachLine].
  - split; [intros []|]. intros (n & l & H & _). destruct n; discriminate H.
  - rewrite in_app_iff, IH. split.
    + intros [H | (n & l' & Hn & H)].
      * exists 0%nat, l. split; [reflexivity|]. now rewrite Z.add_0_r.
      * exists (S n), l'. split; [exact Hn|].
        now replace (index + Z.of_nat (S n)) with (index + 1 + Z.of_nat n) by lia.
    + intros (n & l' & Hn & H). destruct n as [|n].
      * injection Hn as <-. left. now rewrite Z.add_0_r in H.
      * right. exists n, l'. split; [exact Hn|].
        now replace (index + 1 + Z.of_nat n) with (index + Z.of_nat (S n)) by lia.
Qed.

(** *** Line numbers *)

Ltac line_of_callback :=
  intros l i; repeat (apply Forall_app; split);
  match goal with
  | |- Forall _ (if ?c then _ else _) =>
      destruct c; repeat constructor
  end.

Lemma pythonLine_line (l : string) (i : Z) :
  Forall (fun x => line x = i + 1) (pythonLine l i).
Proof. revert l i. unfold pythonLine. line_of_callback. Qed.

Lemma javaLine_line (l : string) (i : Z) :
  Forall (fun x => line x = i + 1) (javaLine l i).
Proof. revert l i. unfold javaLine. line_of_callback. Qed.

Lemma cppLine_line (code l : string) (i : Z) :
  Forall (fun x => line x = i + 1) (cppLine code l i).
Proof. revert l i. unfold cppLine. line_of_callback. Qed.

Lemma genericLine_line (l : string) (i : Z) :
  Forall (fun x => line x = i + 1) (genericLine l i).
Proof. revert l i. unfold genericLine. line_of_callback. Qed.

(** X7. Every issue of the Python, Java, C++ and generic analyzers carries
    the number of a line of the text: between 1 and the number of lines. *)
Theorem line_analyzers_line_numbers (code : string) (a : AnalysisResult) :
  let inText (x : Issue) :=
    1 <= line x <= Z.of_nat (List.length (Js.splitLines code)) in
  Forall inText (issues (analyzePython code a))
  /\ Forall inText (issues (analyzeJava code a))
  /\ Forall inText (issues (analyzeCpp code a))
  /\ Forall inText (issues (analyzeGeneric code a)).
Proof.
  intros inText. subst inText.
  unfold analyzePython, analyzeJava, analyzeCpp, analyzeGeneric.
  cbn [issues setIssues].
  repeat split.
  - apply (forEachLine_line_numbers pythonLine pythonLine_line _ 0).
  - apply (forEachLine_line_numbers javaLine javaLine_line _ 0).
  - apply (forEachLine_line_numbers (cppLine code) (cppLine_line code) _ 0).
  - apply (forEachLine_line_numbers genericLine genericLine_line _ 0).
Qed.

End LineAnalyzers.

(** *** Issue counts and scores *)

Section LineAnalyzerCounts.

Import CodeAnalyzer.

Lemma filter_never (lines : list string) : filter never lines = [].
Proof. induction lines as [|l rest IH]; [reflexivity | exact IH]. Qed.

Lemma score_by_severity (l : list Issue) :
  calculateOverallScore l
  = Z.max 0 (100 - 20 * countSeverity error l - 10 * countSeverity warning l
             - 5 * countSeverity info l - 2 * countSeverity suggestion l).
Proof.
  unfold calculateOverallScore.
  rewrite scoreLoop_totalPenalty, totalPenalty_by_severity.
  apply f_equal. lia.
Qed.

Ltac count_of_callback :=
  intros l i;
  repeat match goal with
         | |- context [if ?c then _ :: _ else _] => destruct c
         end; reflexivity.

Lemma pythonLine_count (s : Severity) (l : string) (i : Z) :
  countSeverity s (pythonLine l i)
  = (if match s with
        | info => 79 <? Js.length l
        | _ => false
        end then 1 else 0)
    + (if match s with
          | suggestion => Js.includes "print(" (Js.trim l)
          | _ => false
          end then 1 else 0).
Proof.
  unfold pythonLine. rewrite indentation_condition_false.
  destruct s; revert l i; count_of_callback.
Qed.

(** X8. The Python analyzer reports one info issue per line longer than 79
    characters, one suggestion per line with a [print(] call, and nothing
    else; the score of its issues is 100 less 5 per long line and 2 per
    print line, floored at 0. *)
Theorem analyzePython_counts (code : string) (a : AnalysisResult) :
  let l := issues (analyzePython code a) in
  let long :=
    Z.of_nat (List.length
      (filter (fun x => 79 <? Js.length x) (Js.splitLines code))) in
  let prints :=
    Z.of_nat (List.length
      (filter (fun x => Js.includes "print(" (Js.trim x))
         (Js.splitLines code))) in
  countSeverity error l = 0
  /\ countSeverity warning l = 0
  /\ countSeverity info l = long
  /\ countSeverity suggestion l = prints
  /\ calculateOverallScore l = Z.max 0 (100 - 5 * long - 2 * prints).
Proof.
  intros l long prints.
  assert (He : countSeverity error l = 0).
  { subst l. unfold analyzePython. cbn [issues setIssues].
    rewrite (forEachLine_count error pythonLine never never
               (pythonLine_count error)).
    now rewrite filter_never. }
  assert (Hw : countSeverity warning l = 0).
  { subst l. unfold analyzePython. cbn [issues setIssues].
    rewrite (forEachLine_count warning pythonLine never never
               (pythonLine_count warning)).
    now rewrite filter_never. }
  assert (Hi : countSeverity info l = long).
  { subst l long. unfold analyzePython. cbn [issues setIssues].
    rewrite (forEachLine_count info pythonLine
               (fun x => 79 <? Js.length x) never (pythonLine_count info)).
    rewrite filter_never. cbn [List.length]. lia. }
  assert (Hs : countSeverity suggestion l = prints).
  { subst l prints. unfold analyzePython. cbn [issues setIssues].
    rewrite (forEachLine_count suggestion pythonLine never
               (fun x => Js.includes "print(" (Js.trim x))
               (pythonLine_count suggestion)).
    rewrite filter_never. cbn [List.length]. lia. }
  repeat split; try assumption.
  rewrite score_by_severity, He, Hw, Hi, Hs. apply f_equal. lia.
Qed.

End LineAnalyzerCounts.

Section OtherLineAnalyzers.

Import CodeAnalyzer.

Ltac count_of_callback :=
  intros l i;
  repeat match goal with
         | |- context [if ?c then _ :: _ else _] => destruct c
         end; reflexivity.

Lemma javaLine_count (s : Severity) (l : string) (i : Z) :
  countSeverity s (javaLine l i)
  = (if match s with
        | suggestion => Js.includes "System.out.println" (Js.trim l)
        | _ => false
        end then 1 else 0)
    + (if match s with
          | warning => RegExp.test missingBraces (Js.trim l)
          | _ => false
          end then 1 else 0).
Proof. unfold javaLine. destruct s; revert l i; count_of_callback. Qed.

(** X9. The Java analyzer reports one suggestion per line whose trimmed
    text contains [System.out.println], one warning per line whose trimmed
    text matches the missing-braces pattern, and nothing else; the score of
    its issues is 100 less 2 per print line and 10 per pattern line,
    floored at 0. *)
Theorem analyzeJava_counts (code : string) (a : AnalysisResult) :
  let l := issues (analyzeJava code a) in
  let prints :=
    Z.of_nat (List.length
      (filter (fun x => Js.includes "System.out.println" (Js.trim x))
         (Js.splitLines code))) in
  let unbraced :=
    Z.of_nat (List.length
      (filter (fun x => RegExp.test missingBraces (Js.trim x))
         (Js.splitLines code))) in
  countSeverity error l = 0
  /\ countSeverity info l = 0
  /\ countSeverity suggestion l = prints
  /\ countSeverity warning l = unbraced
  /\ calculateOverallScore l = Z.max 0 (100 - 2 * prints - 10 * unbraced).
Proof.
  intros l prints unbraced.
  assert (He : countSeverity error l = 0).
  { subst l. unfold analyzeJava. cbn [issues setIssues].
    rewrite (forEachLine_count error javaLine never never
               (javaLine_count error)).
    now rewrite filter_never. }
  assert (Hi : countSeverity info l = 0).
  { subst l. unfold analyzeJava. cbn [issues setIssues].
    rewrite (forEachLine_count info javaLine never never
               (javaLine_count info)).
    now rewrite filter_never. }
  assert (Hs : countSeverity suggestion l = prints).
  { subst l prints. unfold analyzeJava. cbn [issues setIssues].
    rewrite (forEachLine_count suggestion javaLine
               (fun x => Js.includes "System.out.println" (Js.trim x)) never
               (javaLine_count suggestion)).
    rewrite filter_never. cbn [List.length]. lia. }
  assert (Hw : countSeverity warning l = unbraced).
  { subst l unbraced. unfold analyzeJava. cbn [issues setIssues].
    rewrite (forEachLine_count warning javaLine never
               (fun x => RegExp.test missingBraces (Js.trim x))
               (javaLine_count warning)).
    rewrite filter_never. cbn [List.length]. lia. }
  repeat split; try assumption.
  rewrite score_by_severity, He, Hw, Hi, Hs. apply f_equal. lia.
Qed.

Lemma cppLine_count (code : string) (s : Severity) (l : string) (i : Z) :
  countSeverity s (cppLine code l i)
  = (if match s with
        | warning => Js.includes "using namespace std" (Js.trim l)
        | _ => false
        end then 1 else 0)
    + (if match s with
          | error =>
              Js.includes "new " (Js.trim l)
              && negb (Js.includes "delete" code)
          | _ => false
          end then 1 else 0).
Proof. unfold cppLine. destruct s; revert l i; count_of_callback. Qed.

Lemma filter_and_const (p : string -> bool) (b : bool) (lines : list string) :
  filter (fun x => p x && b) lines = if b then filter p lines else [].
Proof.
  induction lines as [|l rest IH]; cbn [filter].
  - now destruct b.
  - rewrite IH. destruct b.
    + now rewrite andb_true_r.
    + now rewrite andb_false_r.
Qed.

(** X10. The C++ analyzer reports one warning per line whose trimmed text
    contains [using namespace std].  When the text contains [delete]
    anywhere it reports no error at all; otherwise it reports one error
    per line whose trimmed text contains [new] followed by a space.  It
    reports nothing else. *)
Theorem analyzeCpp_counts (code : string) (a : AnalysisResult) :
  let l := issues (analyzeCpp code a) in
  let usings :=
    Z.of_nat (List.length
      (filter (fun x => Js.includes "using namespace std" (Js.trim x))
         (Js.splitLines code))) in
  let news :=
    Z.of_nat (List.length
      (filter (fun x => Js.includes "new " (Js.trim x))
         (Js.splitLines code))) in
  countSeverity info l = 0
  /\ countSeverity suggestion l = 0
  /\ countSeverity warning l = usings
  /\ countSeverity error l = (if Js.includes "delete" code then 0 else news)
  /\ calculateOverallScore l
     = Z.max 0 (100 - 10 * usings
                - (if Js.includes "delete" code then 0 else 20 * news)).
Proof.
  intros l usings news.
  assert (Hi : countSeverity info l = 0).
  { subst l. unfold analyzeCpp. cbn [issues setIssues].
    rewrite (forEachLine_count info (cppLine code) never never
               (cppLine_count code info)).
    now rewrite filter_never. }
  assert (Hs : countSeverity suggestion l = 0).
  { subst l. unfold analyzeCpp. cbn [issues setIssues].
    rewrite (forEachLine_count suggestion (cppLine code) never never
               (cppLine_count code suggestion)).
    now rewrite filter_never. }
  assert (Hw : countSeverity warning l = usings).
  { subst l usings. unfold analyzeCpp. cbn [issues setIssues].
    rewrite (forEachLine_count warning (cppLine code)
               (fun x => Js.includes "using namespace std" (Js.trim x)) never
               (cppLine_count code warning)).
    rewrite filter_never. cbn [List.length]. lia. }
  assert (He : countSeverity error l
               = if Js.includes "delete" code then 0 else news).
  { subst l news. unfold analyzeCpp. cbn [issues setIssues].
    rewrite (forEachLine_count error (cppLine code) never
               (fun x => Js.includes "new " (Js.trim x)
                         && negb (Js.includes "delete" code))
               (cppLine_count code error)).
    rewrite filter_never, filter_and_const.
    destruct (Js.includes "delete" code); cbn [negb List.length]; lia. }
  repeat split; try assumption.
  rewrite score_by_severity, He, Hw, Hi, Hs. apply f_equal.
  destruct (Js.includes "delete" code); lia.
Qed.

Lemma genericLine_count (s : Severity) (l : string) (i : Z) :
  countSeverity s (genericLine l i)
  = (if match s with
        | info => 120 <? Js.length l
        | _ => false
        end then 1 else 0)
    + (if match s with
          | info => negb (String.eqb l (Js.trimEnd l))
          | _ => false
          end then 1 else 0).
Proof. unfold genericLine. destruct s; revert l i; count_of_callback. Qed.

Lemma forEachLine_nil (callback : string -> Z -> list Issue)
  (P : string -> Prop) :
  (forall l i, callback l i = [] <-> P l) ->
  forall lines index,
    forEachLine callback lines index = [] <-> Forall P lines.
Proof.
  intros H lines. induction lines as [|l rest IH]; intros index;
    cbn [forEachLine].
  - split; [constructor | reflexivity].
  - split.
    + intros E. apply app_eq_nil in E as [E1 E2]. constructor.
      * now apply (H l index).
      * now apply (IH (index + 1)).
    + intros E. inversion E as [|? ? Hl Hrest]; subst.
      apply (H l index) in Hl. apply (IH (index + 1)) in Hrest.
      now rewrite Hl, Hrest.
Qed.

Lemma genericLine_nil (l : string) (i : Z) :
  genericLine l i = [] <-> (Js.length l <= 120 /\ Js.trimEnd l = l).
Proof.
  unfold genericLine.
  destruct (120 <? Js.length l) eqn:E1;
    destruct (String.eqb l (Js.trimEnd l)) eqn:E2; cbn [negb List.app].
  - split; [discriminate|]. intros [H _]. apply Z.ltb_lt in E1. lia.
  - split; [discriminate|]. intros [H _]. apply Z.ltb_lt in E1. lia.
  - apply String.eqb_eq in E2. apply Z.ltb_ge in E1.
    split; [intros _; split; [exact E1 | now symmetry] | reflexivity].
  - split; [discriminate|]. intros [_ H].
    apply String.eqb_neq in E2. now symmetry in H.
Qed.

(** X11. The generic analyzer reports info issues only: one per line
    longer than 120 characters and one per line with trailing white space.
    It reports nothing exactly when every line has at most 120 characters
    and no trailing white space. *)
Theorem analyzeGeneric_counts (code : string) (a : AnalysisResult) :
  let l := issues (analyzeGeneric code a) in
  let long :=
    Z.of_nat (List.length
      (filter (fun x => 120 <? Js.length x) (Js.splitLines code))) in
  let trailing :=
    Z.of_nat (List.length
      (filter (fun x => negb (String.eqb x (Js.trimEnd x)))
         (Js.splitLines code))) in
  countSeverity error l = 0
  /\ countSeverity warning l = 0
  /\ countSeverity suggestion l = 0
  /\ countSeverity info l = long + trailing
  /\ calculateOverallScore l = Z.max 0 (100 - 5 * (long + trailing))
  /\ (l = [] <->
      Forall (fun x => Js.length x <= 120 /\ Js.trimEnd x = x)
        (Js.splitLines code)).
Proof.
  intros l long trailing.
  assert (He : countSeverity error l = 0).
  { subst l. unfold analyzeGeneric. cbn [issues setIssues].
    rewrite (forEachLine_count error genericLine never never
               (genericLine_count error)).
    now rewrite filter_never. }
  assert (Hw : countSeverity warning l = 0).
  { subst l. unfold analyzeGeneric. cbn [issues setIssues].
    rewrite (forEachLine_count warning genericLine never never
               (genericLine_count warning)).
    now rewrite filter_never. }
  assert (Hs : countSeverity suggestion l = 0).
  { subst l. unfold analyzeGeneric. cbn [issues setIssues].
    rewrite (forEachLine_count suggestion genericLine never never
               (genericLine_count suggestion)).
    now rewrite filter_never. }
  assert (Hi : countSeverity info l = long + trailing).
  { subst l long trailing. unfold analyzeGeneric. cbn [issues setIssues].
    apply (forEachLine_count info genericLine
             (fun x => 120 <? Js.length x)
             (fun x => negb (String.eqb x (Js.trimEnd x)))
             (genericLine_count info)). }
  repeat split; try assumption.
  - rewrite score_by_severity, He, Hw, Hi, Hs. apply f_equal. lia.
  - subst l. unfold analyzeGeneric. cbn [issues setIssues].
    apply (forEachLine_nil genericLine _ genericLine_nil).
  - subst l. unfold analyzeGeneric. cbn [issues setIssues].
    apply (forEachLine_nil genericLine _ genericLine_nil).
Qed.

End OtherLineAnalyzers.

(** *** Long lines, line by line *)

Section PythonLongLines.

Import CodeAnalyzer.

(** X12. For the line at index [n] of a Python text: the analyzer reports
    a 'Line too long' issue for line number [n + 1] (info, style, column
    80) exactly when the line has more than 79 characters. *)
Theorem analyzePython_long_line (code : string) (a : AnalysisResult)
  (n : nat) (l : string) :
  nth_error (Js.splitLines code) n = Some l ->
  (79 < Js.length l
   <-> Exists
         (fun x => title x = "Line too long" /\ line x = Z.of_nat n + 1
                   /\ severity x = info /\ category x = style
                   /\ column x = 80)
         (issues (analyzePython code a))).
Proof.
  intros Hn. unfold analyzePython. cbn [issues setIssues].
  rewrite Exists_exists. split.
  - intros Hlen. apply Z.ltb_lt in Hlen.
    eexists. split.
    + apply forEachLine_In. exists n, l. split; [exact Hn|].
      unfold pythonLine. rewrite indentation_condition_false, Hlen.
      cbn [List.app]. left. reflexivity.
    + cbn [title line severity category column]. repeat split; try lia.
  - intros (x & Hin & Htitle & Hline & _).
    apply forEachLine_In in Hin as (n' & l' & Hn' & Hin).
    pose proof (pythonLine_line l' (0 + Z.of_nat n')) as Hl.
    rewrite Forall_forall in Hl. specialize (Hl x Hin).
    assert (n' = n) by lia. subst n'.
    rewrite Hn in Hn'. injection Hn' as <-.
    unfold pythonLine in Hin. rewrite indentation_condition_false in Hin.
    cbn [List.app] in Hin. apply in_app_or in Hin as [Hin|Hin].
    + destruct (79 <? Js.length l) eqn:E; [now apply Z.ltb_lt | destruct Hin].
    + destruct (Js.includes "print(" (Js.trim l)); [|destruct Hin].
      destruct Hin as [<-|[]]. discriminate Htitle.
Qed.

End PythonLongLines.

(** A line of 80 characters is reported. *)
Lemma analyzePython_long_line_witness :
  Exists
    (fun x => title x = "Line too long" /\ line x = 1
              /\ severity x = info /\ category x = style /\ column x = 80)
    (issues (CodeAnalyzer.analyzePython (Js.repeat "x" 80)
               (CodeAnalyzer.degraded ""))).
Proof.
  apply (proj1 (analyzePython_long_line (Js.repeat "x" 80)
                  (CodeAnalyzer.degraded "") 0 (Js.repeat "x" 80) eq_refl)).
  reflexivity.
Defined.

(** ** The JavaScript analyzer *)

Section JavaScriptFurther.

Import CodeAnalyzer.

Context {Ast : Type}.
Variable parse : string -> Js.Completion Ast.
Variable traverse : Ast -> Js.Completion (list Visit).

Lemma visitor_at_most_one (code : string) (v : Visit) (l : list Issue) :
  visitor code v = Js.Normal l ->
  (List.length l <= 1)%nat /\ countSeverity error l = 0.
Proof.
  destruct v as [kind loc start end_ | loc | loc idName d | loc callee];
    cbn [visitor].
  - intros H. injection H as <-.
    destruct (String.eqb kind "var"); split; cbn [List.length]; try lia;
      reflexivity.
  - intros H. injection H as <-.
    match goal with
    | |- context [if ?c then _ :: _ else _] => destruct c
    end; split; cbn [List.length]; try lia; reflexivity.
  - destruct (calculateFunctionComplexity d) as [c|e]; cbn [Js.bind];
      intros H; [|discriminate H]. injection H as <-.
    destruct (10 <? c); split; cbn [List.length]; try lia; reflexivity.
  - intros H. injection H as <-.
    match goal with
    | |- context [if ?c then _ :: _ else _] => destruct c
    end; split; cbn [List.length]; try lia; reflexivity.
Qed.

Lemma callVisitors_normal (code : string) (visits : list Visit) :
  forall l,
    callVisitors code visits = Js.Normal l ->
    (List.length l <= List.length visits)%nat /\ countSeverity error l = 0.
Proof.
  induction visits as [|v rest IH]; intros l; cbn [callVisitors].
  - intros H. injection H as <-. split; [cbn [List.length]; lia | reflexivity].
  - destruct (visitor code v) as [pushed|e] eqn:Ev; cbn [Js.bind];
      [|discriminate].
    destruct (callVisitors code rest) as [more|e] eqn:Er; cbn [Js.bind];
      [|discriminate].
    intros H. injection H as <-.
    destruct (visitor_at_most_one code v pushed Ev) as [H1 H2].
    destruct (IH more eq_refl) as [H3 H4]. split.
    + rewrite length_app. cbn [List.length]. lia.
    + rewrite countSeverity_app. lia.
Qed.

(** X13. When the parse and the walk succeed on a JavaScript-tagged text
    and no visitor throws, the issues are those pushed by the visitors in
    the order of the walk: at most one per visited node and none of
    severity error, so the recomputation by the record gives the same score
    as the analyzer.  When a visitor throws, what was pushed is dropped:
    the result has the single syntax-error issue and the score 80. *)
Theorem analyzeCode_javascript_walk (code : string) (language : Js.Value)
  (tag : string) (ast : Ast) (visits : list Visit) :
  Js.toLowerCase language = Js.Normal tag ->
  tag = "javascript" \/ tag = "jsx" ->
  parse code = Js.Normal ast ->
  traverse ast = Js.Normal visits ->
  let r := analyzeCode parse traverse code language in
  match callVisitors code visits with
  | Js.Normal l =>
      issues r = l
      /\ (List.length (issues r) <= List.length visits)%nat
      /\ countSeverity error (issues r) = 0
      /\ overallScore (metrics r) = Spec.recordScore (issues r)
  | Js.Throw _ =>
      issues r = [javaScriptSyntaxError code]
      /\ overallScore (metrics r) = 80
  end.
Proof.
  intros Hl Ht Hp Hw r.
  assert (S : overallScore (metrics r) = calculateOverallScore (issues r)).
  { subst r. rewrite (analyzeCode_normal parse traverse code language tag Hl).
    reflexivity. }
  assert (E : issues r
              = match callVisitors code visits with
                | Js.Normal l => l
                | Js.Throw _ => [javaScriptSyntaxError code]
                end).
  { subst r. rewrite (analyzeCode_normal parse traverse code language tag Hl).
    rewrite (dispatch_javascript parse traverse tag code _ Ht).
    unfold analyzeJavaScript, analyzeJavaScript_try. rewrite Hp.
    cbn [Js.bind]. rewrite Hw. cbn [Js.bind].
    destruct (callVisitors code visits); reflexivity. }
  destruct (callVisitors code visits) as [l|e] eqn:Ec.
  - destruct (callVisitors_normal code visits l Ec) as [H1 H2].
    rewrite S, score_by_severity. unfold Spec.recordScore. rewrite E.
    split; [reflexivity|]. split; [exact H1|]. split; [exact H2|].
    rewrite H2. apply f_equal. lia.
  - rewrite S, E. split; reflexivity.
Qed.

(** X14. When the walk throws after a successful parse, what the visitors
    had collected is dropped: the result has the single syntax-error issue
    of a parse failure, and the score 80. *)
Theorem analyzeCode_walk_failure (code : string) (language : Js.Value)
  (tag : string) (ast : Ast) (e : Js.Error) :
  Js.toLowerCase language = Js.Normal tag ->
  tag = "javascript" \/ tag = "jsx" ->
  parse code = Js.Normal ast ->
  traverse ast = Js.Throw e ->
  let r := analyzeCode parse traverse code language in
  issues r = [javaScriptSyntaxError code]
  /\ overallScore (metrics r) = 80.
Proof.
  intros Hl Ht Hp Hw r. subst r.
  rewrite (analyzeCode_normal parse traverse code language tag Hl).
  rewrite (dispatch_javascript parse traverse tag code _ Ht).
  unfold analyzeJavaScript, analyzeJavaScript_try. rewrite Hp.
  cbn [Js.bind]. rewrite Hw. split; reflexivity.
Qed.

Lemma functionTraverse_outcome (d : list NodeType) :
  forall acc,
    functionTraverse d acc
    = if existsb returnsCounter d
      then Js.Throw (Js.OtherError "Unexpected return value from visitor method")
      else Js.Normal
             (acc + Z.of_nat (List.length (filter isCountedOperator d))).
Proof.
  induction d as [|n d IH]; intros acc;
    cbn [functionTraverse existsb filter].
  - cbn [List.length]. f_equal. lia.
  - destruct (returnsCounter n); cbn [orb]; [reflexivity|].
    destruct (isCountedOperator n); rewrite IH;
      destruct (existsb returnsCounter d); try reflexivity;
      cbn [List.length]; f_equal; lia.
Qed.

(** X15. calculateFunctionComplexity throws as soon as there is an if, a
    conditional expression, a for, a while, a do-while, a switch case or a
    catch below the function: the visitors of these nodes return the
    counter, which the walker refuses.  Without any such node it returns 1
    plus the number of logical && and || expressions, and the function is
    reported exactly when that makes more than 10, that is with 10 of
    them or more. *)
Theorem calculateFunctionComplexity_outcome (code : string)
  (loc : option Loc) (idName : option string) (d : list NodeType) :
  calculateFunctionComplexity d
  = (if existsb returnsCounter d
     then Js.Throw (Js.OtherError "Unexpected return value from visitor method")
     else Js.Normal
            (1 + Z.of_nat (List.length (filter isCountedOperator d))))
  /\ match visitor code (FunctionDeclaration loc idName d) with
     | Js.Throw _ => existsb returnsCounter d = true
     | Js.Normal l =>
         existsb returnsCounter d = false
         /\ (l <> [] <-> (10 <= List.length (filter isCountedOperator d))%nat)
     end.
Proof.
  assert (E : calculateFunctionComplexity d
              = if existsb returnsCounter d
                then Js.Throw
                       (Js.OtherError "Unexpected return value from visitor method")
                else Js.Normal
                       (1 + Z.of_nat
                              (List.length (filter isCountedOperator d)))).
  { unfold calculateFunctionComplexity. apply functionTraverse_outcome. }
  split; [exact E|]. cbn [visitor]. rewrite E.
  destruct (existsb returnsCounter d); cbn [Js.bind]; [reflexivity|].
  split; [reflexivity|].
  destruct (10 <? 1 + Z.of_nat (List.length (filter isCountedOperator d)))
    eqn:C.
  - apply Z.ltb_lt in C. split; [lia | discriminate].
  - apply Z.ltb_ge in C. split; [intros H; now elim H | lia].
Qed.

End JavaScriptFurther.

(** The text [var x = 1]: one warning for the declaration, score 90. *)
Lemma analyzeCode_javascript_walk_witness :
  let r :=
    CodeAnalyzer.analyzeCode acceptingParse varTraverse "var x = 1"
      (Js.Str "javascript") in
  List.length (issues r) = 1%nat
  /\ countSeverity error (issues r) = 0
  /\ overallScore (metrics r) = 90.
Proof.
  intros r.
  pose proof (analyzeCode_javascript_walk acceptingParse varTraverse
                "var x = 1" (Js.Str "javascript") "javascript" tt _
                eq_refl (or_introl eq_refl) eq_refl eq_refl) as H.
  cbv zeta in H.
  change (CodeAnalyzer.callVisitors "var x = 1" _)
    with (Js.Normal (issues r)) in H.
  cbv iota in H. destruct H as (_ & _ & He & _).
  split; [reflexivity|]. split; [exact He | reflexivity].
Defined.

Lemma analyzeCode_walk_failure_witness :
  issues (CodeAnalyzer.analyzeCode acceptingParse throwingTraverse
            "let a; let a;" (Js.Str "javascript"))
  = [CodeAnalyzer.javaScriptSyntaxError "let a; let a;"].
Proof.
  apply (analyzeCode_walk_failure acceptingParse throwingTraverse
           "let a; let a;" (Js.Str "javascript") "javascript" tt
           (Js.OtherError "Duplicate declaration")
           eq_refl (or_introl eq_refl) eq_refl eq_refl).
Defined.

(** ** The orchestrator, further *)

Section OrchestratorFurther.

Import CodeAnalyzer.

Context {Ast : Type}.
Variable parse : string -> Js.Completion Ast.
Variable traverse : Ast -> Js.Completion (list Visit).

Lemma toLowerChar_idempotent (c : ascii) :
  Js.toLowerChar (Js.toLowerChar c) = Js.toLowerChar c.
Proof.
  destruct c as [[] [] [] [] [] [] [] []]; reflexivity.
Qed.

Lemma toLower_idempotent (s : string) :
  Js.mapChars Js.toLowerChar (Js.mapChars Js.toLowerChar s)
  = Js.mapChars Js.toLowerChar s.
Proof.
  induction s as [|c r IH]; cbn [Js.mapChars]; [reflexivity|].
  now rewrite toLowerChar_idempotent, IH.
Qed.

(** The metric primitives take the language and do not read it. *)
Lemma metrics_ignore_language (code : string) (l1 l2 : Js.Value) :
  calculateComplexity code l1 = calculateComplexity code l2
  /\ calculateMaintainabilityIndex code l1
     = calculateMaintainabilityIndex code l2.
Proof.
  assert (E : calculateComplexity code l1 = calculateComplexity code l2).
  { unfold calculateComplexity. reflexivity. }
  split; [exact E|].
  unfold calculateMaintainabilityIndex. now rewrite E.
Qed.

Lemma analyzeCode_same_tag (code : string) (s1 s2 : string) :
  Js.mapChars Js.toLowerChar s1 = Js.mapChars Js.toLowerChar s2 ->
  analyzeCode parse traverse code (Js.Str s1)
  = analyzeCode parse traverse code (Js.Str s2).
Proof.
  intros H.
  rewrite (analyzeCode_normal parse traverse code (Js.Str s1)
             (Js.mapChars Js.toLowerChar s1) eq_refl).
  rewrite (analyzeCode_normal parse traverse code (Js.Str s2)
             (Js.mapChars Js.toLowerChar s1)).
  - destruct (metrics_ignore_language code (Js.Str s1) (Js.Str s2))
      as [-> ->].
    reflexivity.
  - cbn [Js.toLowerCase]. now rewrite H.
Qed.

Lemma dispatch_alias (code : string) (a : AnalysisResult) :
  dispatch parse traverse "jsx" code a
  = dispatch parse traverse "javascript" code a
  /\ dispatch parse traverse "c++" code a
     = dispatch parse traverse "cpp" code a.
Proof. split; reflexivity. Qed.

(** X16. The language tag is read without regard to case: a tag and its
    lower-case form give the same result, for every text; [jsx] is treated
    as [javascript] and [c++] as [cpp]. *)
Theorem analyzeCode_case_insensitive (code s : string) :
  analyzeCode parse traverse code (Js.Str s)
  = analyzeCode parse traverse code (Js.Str (Js.mapChars Js.toLowerChar s))
  /\ analyzeCode parse traverse code (Js.Str "jsx")
     = analyzeCode parse traverse code (Js.Str "javascript")
  /\ analyzeCode parse traverse code (Js.Str "c++")
     = analyzeCode parse traverse code (Js.Str "cpp").
Proof.
  split; [|split].
  - apply analyzeCode_same_tag. symmetry. apply toLower_idempotent.
  - rewrite (analyzeCode_normal parse traverse code (Js.Str "jsx") "jsx"
               eq_refl).
    rewrite (analyzeCode_normal parse traverse code (Js.Str "javascript")
               "javascript" eq_refl).
    destruct (metrics_ignore_language code (Js.Str "jsx")
                (Js.Str "javascript")) as [-> ->].
    cbv zeta. now rewrite (proj1 (dispatch_alias code _)).
  - rewrite (analyzeCode_normal parse traverse code (Js.Str "c++") "c++"
               eq_refl).
    rewrite (analyzeCode_normal parse traverse code (Js.Str "cpp") "cpp"
               eq_refl).
    destruct (metrics_ignore_language code (Js.Str "c++") (Js.Str "cpp"))
      as [-> ->].
    cbv zeta. now rewrite (proj2 (dispatch_alias code _)).
Qed.

(** X17. On the empty text, under every tag other than [javascript] and
    [jsx]: no line of code, no issue, score 100; the complexity is 2 and
    the maintainability index 96. *)
Theorem analyzeCode_empty_text (s : string) :
  Js.mapChars Js.toLowerChar s <> "javascript" ->
  Js.mapChars Js.toLowerChar s <> "jsx" ->
  let r := analyzeCode parse traverse "" (Js.Str s) in
  issues r = []
  /\ linesOfCode (metrics r) = 0
  /\ complexity (metrics r) = 2
  /\ (maintainabilityIndex (metrics r) == 96)%Q
  /\ overallScore (metrics r) = 100.
Proof.
  intros H1 H2 r. subst r.
  rewrite (analyzeCode_normal parse traverse "" (Js.Str s)
             (Js.mapChars Js.toLowerChar s) eq_refl).
  apply String.eqb_neq in H1, H2.
  cbv zeta. unfold dispatch. rewrite H1, H2. cbn [orb].
  destruct (String.eqb _ "python"); [repeat split|].
  destruct (String.eqb _ "java"); [repeat split|].
  destruct (String.eqb _ "cpp" || String.eqb _ "c++"); repeat split.
Qed.

End OrchestratorFurther.

Lemma analyzeCode_empty_text_witness :
  let r :=
    CodeAnalyzer.analyzeCode rejectingParse emptyTraverse "" (Js.Str "Ruby") in
  issues r = [] /\ overallScore (metrics r) = 100.
Proof.
  intros r.
  assert (H1 : Js.mapChars Js.toLowerChar "Ruby" <> "javascript")
    by discriminate.
  assert (H2 : Js.mapChars Js.toLowerChar "Ruby" <> "jsx") by discriminate.
  destruct (analyzeCode_empty_text rejectingParse emptyTraverse "Ruby" H1 H2)
    as (Hi & _ & _ & _ & Hs).
  split; [exact Hi | exact Hs].
Defined.

(** ** The review record *)

Section Summary.

Lemma category_eqb_eq (a b : Category) :
  CodeReview.category_eqb a b = true <-> a = b.
Proof. destruct a, b; cbn; split; intros H; try discriminate H; reflexivity. Qed.

Lemma category_eqb_refl (a : Category) : CodeReview.category_eqb a a = true.
Proof. now apply category_eqb_eq. Qed.

Lemma orZero_Some (v : Z) : CodeReview.orZero (Some v) = v.
Proof.
  cbn [CodeReview.orZero]. destruct (v =? 0) eqn:E; [|reflexivity].
  apply Z.eqb_eq in E. now subst v.
Qed.

Lemma getCount_setCount (key c : Category) (v : Z)
  (m : CodeReview.CategoryCounts) :
  CodeReview.getCount c (CodeReview.setCount key v m)
  = if CodeReview.category_eqb key c then Some v else CodeReview.getCount c m.
Proof.
  induction m as [|[k w] rest IH];
    cbn [CodeReview.setCount CodeReview.getCount].
  - destruct (CodeReview.category_eqb key c); reflexivity.
  - destruct (CodeReview.category_eqb k key) eqn:E;
      cbn [CodeReview.getCount].
    + apply category_eqb_eq in E. subst k.
      destruct (CodeReview.category_eqb key c); reflexivity.
    + destruct (CodeReview.category_eqb k c) eqn:E'.
      * apply category_eqb_eq in E'. subst k.
        destruct (CodeReview.category_eqb key c) eqn:E''; [|reflexivity].
        apply category_eqb_eq in E''. subst key.
        rewrite category_eqb_refl in E. discriminate E.
      * exact IH.
Qed.

Lemma sumCounts_setCount (key : Category) (v : Z)
  (m : CodeReview.CategoryCounts) :
  sumCounts (CodeReview.setCount key v m)
  = sumCounts m - CodeReview.orZero (CodeReview.getCount key m) + v.
Proof.
  induction m as [|[k w] rest IH];
    cbn [CodeReview.setCount CodeReview.getCount sumCounts].
  - cbn [CodeReview.orZero]. lia.
  - destruct (CodeReview.category_eqb k key); cbn [sumCounts].
    + rewrite orZero_Some. lia.
    + rewrite IH. lia.
Qed.

Lemma keys_setCount (key : Category) (v : Z) (m : CodeReview.CategoryCounts) :
  (forall c, In c (map fst (CodeReview.setCount key v m))
             <-> c = key \/ In c (map fst m))
  /\ (NoDup (map fst m) -> NoDup (map fst (CodeReview.setCount key v m))).
Proof.
  induction m as [|[k w] rest [IH1 IH2]];
    cbn [CodeReview.setCount map fst In].
  - split.
    + intros c. split; [intros [H|[]]; now left | intros [H|[]]; now left].
    + intros _. constructor; [intros [] | constructor].
  - destruct (CodeReview.category_eqb k key) eqn:E; cbn [map fst In].
    + apply category_eqb_eq in E. subst k. split.
      * intros c. split; [intros [H|H]; [left; now symmetry | now right; right]|].
        intros [H|[H|H]]; [left; now symmetry | now left | now right].
      * trivial.
    + split.
      * intros c. rewrite IH1. tauto.
      * intros H. inversion H as [|? ? Hk Hrest]; subst. constructor.
        -- rewrite IH1. intros [Hc|Hc]; [|contradiction].
           subst k. rewrite category_eqb_refl in E. discriminate E.
        -- now apply IH2.
Qed.

Lemma countCategory_cons (c : Category) (i : Issue) (l : list Issue) :
  countCategory c (i :: l)
  = (if CodeReview.category_eqb (category i) c then 1 else 0)
    + countCategory c l.
Proof.
  unfold countCategory. cbn [filter].
  destruct (CodeReview.category_eqb (category i) c); cbn [List.length]; lia.
Qed.

Lemma countCategory_nonneg (c : Category) (l : list Issue) :
  0 <= countCategory c l.
Proof. unfold countCategory. lia. Qed.

(** The loop of [getSummary], from any pair of counters. *)
Lemma countLoop_from (l : list Issue) :
  forall (sc : CodeReview.SeverityCounts) (cc : CodeReview.CategoryCounts),
    let result :=
      fold_left
        (fun (counts : CodeReview.SeverityCounts * CodeReview.CategoryCounts)
             issue =>
           let (severityCounts, categoryCounts) := counts in
           (CodeReview.incrementSeverity (severity issue) severityCounts,
            CodeReview.setCount (category issue)
              (CodeReview.orZero
                 (CodeReview.getCount (category issue) categoryCounts) + 1)
              categoryCounts))
        l (sc, cc) in
    CodeReview.errorCount (fst result)
    = CodeReview.errorCount sc + countSeverity error l
    /\ CodeReview.warningCount (fst result)
       = CodeReview.warningCount sc + countSeverity warning l
    /\ CodeReview.infoCount (fst result)
       = CodeReview.infoCount sc + countSeverity info l
    /\ CodeReview.suggestionCount (fst result)
       = CodeReview.suggestionCount sc + countSeverity suggestion l
    /\ (forall c,
          CodeReview.getCount c (snd result)
          = if countCategory c l =? 0 then CodeReview.getCount c cc
            else Some (CodeReview.orZero (CodeReview.getCount c cc)
                       + countCategory c l))
    /\ sumCounts (snd result) = sumCounts cc + Z.of_nat (List.length l)
    /\ (NoDup (map fst cc) -> NoDup (map fst (snd result))).
Proof.
  induction l as [|i l IH]; intros sc cc; cbn [fold_left].
  - cbv zeta. cbn [fst snd List.length]. rewrite !countSeverity_nil.
    repeat split; try lia. trivial.
  - specialize (IH (CodeReview.incrementSeverity (severity i) sc)
                  (CodeReview.setCount (category i)
                     (CodeReview.orZero (CodeReview.getCount (category i) cc) + 1)
                     cc)).
    cbv zeta in IH |- *.
    destruct IH as (He & Hw & Hi & Hs & Hc & Hsum & Hnd).
    rewrite He, Hw, Hi, Hs, Hsum. rewrite !countSeverity_cons.
    split; [|split; [|split; [|split; [|split; [|split]]]]].
    + destruct (severity i);
        cbn [CodeReview.incrementSeverity CodeReview.errorCount
             CodeReview.warningCount CodeReview.infoCount
             CodeReview.suggestionCount severity_eqb]; lia.
    + destruct (severity i);
        cbn [CodeReview.incrementSeverity CodeReview.errorCount
             CodeReview.warningCount CodeReview.infoCount
             CodeReview.suggestionCount severity_eqb]; lia.
    + destruct (severity i);
        cbn [CodeReview.incrementSeverity CodeReview.errorCount
             CodeReview.warningCount CodeReview.infoCount
             CodeReview.suggestionCount severity_eqb]; lia.
    + destruct (severity i);
        cbn [CodeReview.incrementSeverity CodeReview.errorCount
             CodeReview.warningCount CodeReview.infoCount
             CodeReview.suggestionCount severity_eqb]; lia.
    + intros c. rewrite Hc, getCount_setCount, countCategory_cons.
      pose proof (countCategory_nonneg c l) as Hn.
      destruct (CodeReview.category_eqb (category i) c) eqn:E.
      * apply category_eqb_eq in E. rewrite E.
        rewrite orZero_Some.
        destruct (countCategory c l =? 0) eqn:Z0.
        -- apply Z.eqb_eq in Z0. rewrite Z0. cbn [Z.add Z.eqb].
           f_equal; lia.
        -- apply Z.eqb_neq in Z0.
           destruct (1 + countCategory c l =? 0) eqn:Z1.
           ++ apply Z.eqb_eq in Z1. lia.
           ++ f_equal; lia.
      * rewrite Z.add_0_l. reflexivity.
    + rewrite sumCounts_setCount. cbn [List.length]. lia.
    + intros H. apply Hnd. now apply keys_setCount.
Qed.

Lemma length_by_severity (l : list Issue) :
  Z.of_nat (List.length l)
  = countSeverity error l + countSeverity warning l + countSeverity info l
    + countSeverity suggestion l.
Proof.
  induction l as [|i l IH].
  - reflexivity.
  - rewrite !countSeverity_cons. cbn [List.length].
    destruct (severity i); cbn [severity_eqb]; lia.
Qed.

(** X18. The severity counts of a summary are the numbers of issues of
    each severity, and they add up to the total. *)
Theorem getSummary_severityCounts (this : CodeReview.Document) :
  let s := CodeReview.getSummary this in
  let l := CodeReview.issues this in
  CodeReview.errorCount (CodeReview.severityCounts s) = countSeverity error l
  /\ CodeReview.warningCount (CodeReview.severityCounts s)
     = countSeverity warning l
  /\ CodeReview.infoCount (CodeReview.severityCounts s) = countSeverity info l
  /\ CodeReview.suggestionCount (CodeReview.severityCounts s)
     = countSeverity suggestion l
  /\ CodeReview.totalIssues s
     = CodeReview.errorCount (CodeReview.severityCounts s)
       + CodeReview.warningCount (CodeReview.severityCounts s)
       + CodeReview.infoCount (CodeReview.severityCounts s)
       + CodeReview.suggestionCount (CodeReview.severityCounts s).
Proof.
  intros s l. subst s l. unfold CodeReview.getSummary, CodeReview.countLoop.
  pose proof (countLoop_from (CodeReview.issues this)
                {| CodeReview.errorCount := 0; CodeReview.warningCount := 0;
                   CodeReview.infoCount := 0;
                   CodeReview.suggestionCount := 0 |} []) as H.
  cbv zeta in H. destruct (fold_left _ _ _) as [sc cc].
  cbn [fst snd CodeReview.errorCount CodeReview.warningCount
       CodeReview.infoCount CodeReview.suggestionCount] in H.
  destruct H as (He & Hw & Hi & Hs & _).
  cbn [CodeReview.severityCounts CodeReview.totalIssues].
  rewrite He, Hw, Hi, Hs, length_by_severity. repeat split; lia.
Qed.

(** X19. The category counts of a summary hold one key per category that
    occurs among the issues, each once, with the number of issues of that
    category; a category that does not occur has no key; the counts add up
    to the total. *)
Theorem getSummary_categoryCounts (this : CodeReview.Document) :
  let s := CodeReview.getSummary this in
  let l := CodeReview.issues this in
  (forall c,
     CodeReview.getCount c (CodeReview.categoryCounts s)
     = if countCategory c l =? 0 then None else Some (countCategory c l))
  /\ NoDup (map fst (CodeReview.categoryCounts s))
  /\ sumCounts (CodeReview.categoryCounts s) = CodeReview.totalIssues s.
Proof.
  intros s l. subst s l. unfold CodeReview.getSummary, CodeReview.countLoop.
  pose proof (countLoop_from (CodeReview.issues this)
                {| CodeReview.errorCount := 0; CodeReview.warningCount := 0;
                   CodeReview.infoCount := 0;
                   CodeReview.suggestionCount := 0 |} []) as H.
  cbv zeta in H. destruct (fold_left _ _ _) as [sc cc].
  cbn [fst snd] in H. destruct H as (_ & _ & _ & _ & Hc & Hsum & Hnd).
  cbn [CodeReview.categoryCounts CodeReview.totalIssues].
  split; [|split].
  - intros c. rewrite Hc. cbn [CodeReview.getCount CodeReview.orZero].
    destruct (countCategory c (CodeReview.issues this) =? 0); [reflexivity|].
    f_equal.
  - apply Hnd. constructor.
  - rewrite Hsum. cbn [sumCounts]. lia.
Qed.

End Summary.

(** ** Writing the analysis into the review *)

Section Route.

Import CodeAnalyzer.

Context {Ast : Type}.
Variable parse : string -> Js.Completion Ast.
Variable traverse : Ast -> Js.Completion (list Visit).

Lemma recordScore_bounds (l : list Issue) :
  calculateOverallScore l <= Spec.recordScore l <= 100.
Proof.
  rewrite score_by_severity. unfold Spec.recordScore.
  pose proof (countSeverity_nonneg error l).
  pose proof (countSeverity_nonneg warning l).
  pose proof (countSeverity_nonneg info l).
  pose proof (countSeverity_nonneg suggestion l).
  lia.
Qed.

Lemma recordScore_perfect_iff (l : list Issue) :
  Spec.recordScore l = 100 <-> l = [].
Proof.
  split.
  - unfold Spec.recordScore. intros H.
    pose proof (countSeverity_nonneg error l).
    pose proof (countSeverity_nonneg warning l).
    pose proof (countSeverity_nonneg info l).
    pose proof (countSeverity_nonneg suggestion l).
    pose proof (length_by_severity l).
    destruct l as [|i l]; [reflexivity|]. cbn [List.length] in *. lia.
  - intros ->. reflexivity.
Qed.

Lemma analysis_score_le_record (code : string) (language : Js.Value) :
  let analysis := analyzeCode parse traverse code language in
  overallScore (metrics analysis) <= Spec.recordScore (issues analysis).
Proof.
  cbv zeta. destruct (Js.toLowerCase language) as [tag|e] eqn:E.
  - rewrite (analyzeCode_normal parse traverse code language tag E).
    cbv zeta. unfold setOverallScore. cbn [metrics overallScore issues].
    apply recordScore_bounds.
  - apply (proj2 (analyzeCode_try_throws parse traverse code language e)) in E.
    rewrite (analyzeCode_thrown parse traverse code language e E).
    vm_compute. discriminate.
Qed.

Lemma updateWithResults_score (review : CodeReview.Document)
  (analysis : AnalysisResult) :
  let saved := ReviewRoute.updateWithResults review analysis in
  CodeReview.issues saved = issues analysis
  /\ overallScore (CodeReview.metrics saved)
     = Spec.recordScore (issues analysis).
Proof.
  unfold ReviewRoute.updateWithResults. cbv zeta.
  cbn [CodeReview.issues CodeReview.metrics overallScore].
  rewrite map_id. split; [reflexivity|].
  rewrite record_score_counts. reflexivity.
Qed.

(** X20. The review saved by processCodeAnalysis carries the issues of the
    analysis and its line count, complexity and maintainability index, but
    not its score: the score saved is the record's own recomputation
    (15 per error), which is never below the score of the analysis and
    never above 100. *)
Theorem processCodeAnalysis_saved_score (review : CodeReview.Document)
  (code : string) (language : Js.Value) :
  let analysis := analyzeCode parse traverse code language in
  let saved :=
    ReviewRoute.processCodeAnalysis parse traverse review code language in
  CodeReview.issues saved = issues analysis
  /\ linesOfCode (CodeReview.metrics saved) = linesOfCode (metrics analysis)
  /\ complexity (CodeReview.metrics saved) = complexity (metrics analysis)
  /\ maintainabilityIndex (CodeReview.metrics saved)
     = maintainabilityIndex (metrics analysis)
  /\ overallScore (CodeReview.metrics saved)
     = Spec.recordScore (issues analysis)
  /\ overallScore (metrics analysis)
     <= overallScore (CodeReview.metrics saved) <= 100.
Proof.
  intros analysis saved. subst saved. unfold ReviewRoute.processCodeAnalysis.
  fold analysis.
  destruct (updateWithResults_score review analysis) as [Hi Hs].
  split; [exact Hi|]. split; [reflexivity|]. split; [reflexivity|].
  split; [reflexivity|]. split; [exact Hs|]. rewrite Hs. split.
  - apply analysis_score_le_record.
  - apply recordScore_bounds.
Qed.

(** X21. The points earned for a review are between 0 and 10, and they
    are 10 exactly when the analysis found no issue. *)
Theorem processCodeAnalysis_points (review : CodeReview.Document)
  (code : string) (language : Js.Value) :
  let analysis := analyzeCode parse traverse code language in
  let saved :=
    ReviewRoute.processCodeAnalysis parse traverse review code language in
  0 <= ReviewRoute.pointsEarned saved <= 10
  /\ (ReviewRoute.pointsEarned saved = 10 <-> issues analysis = []).
Proof.
  intros analysis saved. subst saved. unfold ReviewRoute.processCodeAnalysis.
  fold analysis. unfold ReviewRoute.pointsEarned.
  destruct (updateWithResults_score review analysis) as [_ Hs]. rewrite Hs.
  pose proof (recordScore_bounds (issues analysis)) as [_ Hhi].
  assert (Hlo : 0 <= Spec.recordScore (issues analysis))
    by (unfold Spec.recordScore; lia).
  rewrite <- recordScore_perfect_iff.
  pose proof (Z.div_mod (Spec.recordScore (issues analysis)) 10).
  pose proof (Z.mod_pos_bound (Spec.recordScore (issues analysis)) 10).
  lia.
Qed.

(** X22. The summary of a review saved by processCodeAnalysis shows the
    saved score, also when that score is 0 and the summary recomputes
    it. *)
Theorem getSummary_after_processing (review : CodeReview.Document)
  (code : string) (language : Js.Value) :
  let saved :=
    ReviewRoute.processCodeAnalysis parse traverse review code language in
  CodeReview.summaryOverallScore (CodeReview.getSummary saved)
  = overallScore (CodeReview.metrics saved).
Proof.
  intros saved. subst saved. unfold ReviewRoute.processCodeAnalysis.
  set (analysis := analyzeCode parse traverse code language).
  destruct (updateWithResults_score review analysis) as [Hi Hs].
  unfold CodeReview.getSummary.
  destruct (CodeReview.countLoop _) as [sc cc].
  cbn [CodeReview.summaryOverallScore].
  destruct (overallScore _ =? 0) eqn:E; [|reflexivity].
  rewrite record_score_counts, Hi, Hs. reflexivity.
Qed.

(** X23. With a string for the language tag, which is what the route has
    when it calls processCodeAnalysis (it has lower-cased the tag before),
    and a text, the [try] block of analyzeCode does not throw: the
    exceptions of the parser and of the visitors stay inside
    analyzeJavaScript.  So the review does not receive the degraded
    result: its complexity is at least 2, where the degraded one is 1. *)
Theorem processCodeAnalysis_never_degraded (review : CodeReview.Document)
  (code tag : string) :
  let analysis := analyzeCode parse traverse code (Js.Str tag) in
  let saved :=
    ReviewRoute.processCodeAnalysis parse traverse review code (Js.Str tag) in
  analyzeCode_try parse traverse code (Js.Str tag) = Js.Normal analysis
  /\ analysis <> degraded code
  /\ 2 <= complexity (CodeReview.metrics saved).
Proof.
  intros analysis saved.
  assert (Hc : 2 <= complexity (metrics analysis)).
  { subst analysis.
    rewrite (analyzeCode_normal parse traverse code (Js.Str tag)
               (Js.mapChars Js.toLowerChar tag) eq_refl).
    cbv zeta. unfold setOverallScore. cbn [metrics complexity].
    rewrite dispatch_metrics. cbn [metrics complexity].
    pose proof (calculateComplexity_length code (Js.Str tag)).
    unfold Js.length in *. lia. }
  split; [|split].
  - subst analysis. unfold analyzeCode.
    destruct (analyzeCode_try parse traverse code (Js.Str tag)) as [a|e] eqn:E.
    + reflexivity.
    + apply analyzeCode_try_throws in E. discriminate E.
  - intros H. rewrite H in Hc. cbn [degraded metrics complexity] in Hc. lia.
  - exact Hc.
Qed.

End Route.


(** ** The keyword patterns of calculateComplexity *)

Section KeywordPatterns.

Import CodeAnalyzer.

Lemma substring_zero (s : string) (i : nat) :
  String.substring i 0 s = EmptyString.
Proof.
  revert i. induction s as [|c r IH]; intros [|i]; cbn [String.substring];
    try reflexivity. apply IH.
Qed.

Lemma substring_step (s : string) (i n : nat) :
  String.substring i (S n) s
  = match String.get i s with
    | Some c => String c (String.substring (S i) n s)
    | None => EmptyString
    end.
Proof.
  revert i. induction s as [|c r IH]; intros [|i];
    cbn [String.substring String.get]; try reflexivity.
  apply IH.
Qed.

(** A run of literal characters matches when the text has them at the
    index. *)
Lemma run_literal (kw : string) (tail : RegExp.Node) (s : string) :
  forall (i : nat) (k : nat -> option nat),
    RegExp.run
      (fold_right (fun c r => RegExp.Seq (RegExp.Char c) r) tail
         (list_ascii_of_string kw)) s i k
    = if String.eqb (String.substring i (String.length kw) s) kw
      then RegExp.run tail s (i + String.length kw) k
      else None.
Proof.
  induction kw as [|c r IH]; intros i k;
    cbn [list_ascii_of_string fold_right String.length].
  - rewrite substring_zero, Nat.add_0_r. reflexivity.
  - cbn [RegExp.run]. rewrite substring_step.
    destruct (String.get i s) as [c'|]; [|reflexivity].
    cbn [String.eqb]. rewrite (Ascii.eqb_sym c' c).
    destruct (Ascii.eqb c c'); [|reflexivity].
    cbn [andb]. rewrite IH. now rewrite Nat.add_succ_r.
Qed.

Lemma matchAt_keyword (kw s : string) (i : nat) :
  RegExp.matchAt (keywordPattern kw) s i
  = if wordOccurrenceAt kw s i then Some (i + String.length kw)%nat else None.
Proof.
  unfold RegExp.matchAt, keywordPattern, wordOccurrenceAt.
  cbn [RegExp.run]. destruct (RegExp.isWordBoundary s i); [|reflexivity].
  rewrite run_literal. cbn [andb].
  destruct (String.eqb _ kw); [|reflexivity].
  cbn [RegExp.run andb].
  destruct (RegExp.isWordBoundary s (i + String.length kw)); reflexivity.
Qed.


Lemma occurrence_chars (kw s : string) (i d : nat) :
  String.eqb (String.substring i (String.length kw) s) kw = true ->
  (d < String.length kw)%nat ->
  RegExp.wordAt s (i + d) = RegExp.wordAt kw d.
Proof.
  intros H Hd. apply String.eqb_eq in H. unfold RegExp.wordAt.
  pose proof (substring_correct1 s i (String.length kw) d Hd) as E.
  rewrite H in E. rewrite (Nat.add_comm i d). now rewrite <- E.
Qed.

Lemma homogeneous_adjacent (kw : string) :
  homogeneous kw = true ->
  forall d, (S d < String.length kw)%nat ->
            RegExp.wordAt kw d = RegExp.wordAt kw (S d).
Proof.
  induction kw as [|c r IH]; intros H d Hd; [cbn in Hd; lia|].
  destruct r as [|c' r']; [cbn in Hd; lia|].
  cbn [homogeneous] in H. apply andb_prop in H as [H1 H2].
  apply Bool.eqb_prop in H1.
  destruct d as [|d].
  - unfold RegExp.wordAt. cbn [String.get]. exact H1.
  - unfold RegExp.wordAt in *. cbn [String.get].
    apply (IH H2 d). cbn [String.length] in *. lia.
Qed.

(** Inside an occurrence of a homogeneous keyword there is no word
    boundary, so no other occurrence starts there. *)
Lemma no_overlap (kw s : string) (i d : nat) :
  homogeneous kw = true ->
  wordOccurrenceAt kw s i = true ->
  (0 < d < String.length kw)%nat ->
  wordOccurrenceAt kw s (i + d) = false.
Proof.
  intros Hh Ho Hd. unfold wordOccurrenceAt in Ho.
  apply andb_prop in Ho as [Ho _]. apply andb_prop in Ho as [_ Ho].
  unfold wordOccurrenceAt, RegExp.isWordBoundary.
  destruct d as [|d]; [lia|].
  replace (i + S d)%nat with (S (i + d)) by lia.
  rewrite (occurrence_chars kw s i d Ho) by lia.
  replace (S (i + d)) with (i + S d)%nat by lia.
  rewrite (occurrence_chars kw s i (S d) Ho) by lia.
  rewrite (homogeneous_adjacent kw Hh d) by lia.
  now rewrite xorb_nilpotent.
Qed.

(** The global match with a keyword pattern finds every occurrence. *)
Lemma matchAllFrom_keyword (kw s : string) :
  homogeneous kw = true ->
  forall n i skip,
    (forall j, (i <= j < i + skip)%nat -> wordOccurrenceAt kw s j = false) ->
    List.length (RegExp.matchAllFrom (keywordPattern kw) s i skip n)
    = countFrom (wordOccurrenceAt kw s) i n.
Proof.
  intros Hh. induction n as [|n IH]; intros i skip Hskip;
    cbn [RegExp.matchAllFrom countFrom]; [reflexivity|].
  destruct skip as [|skip].
  - rewrite matchAt_keyword.
    destruct (wordOccurrenceAt kw s i) eqn:E.
    + cbn [List.length]. rewrite IH; [reflexivity|].
      intros j Hj.
      replace j with (i + (j - i))%nat by lia.
      apply no_overlap; [exact Hh | exact E | lia].
    + rewrite IH; [reflexivity|]. intros j Hj. lia.
  - rewrite (Hskip i) by lia. rewrite IH; [reflexivity|].
    intros j Hj. apply Hskip. lia.
Qed.

Lemma keyword_match_count (kw code : string) :
  homogeneous kw = true ->
  List.length (RegExp.matchAll (keywordPattern kw) code)
  = countFrom (wordOccurrenceAt kw code) 0 (S (String.length code)).
Proof.
  intros Hh. unfold RegExp.matchAll. apply matchAllFrom_keyword; [exact Hh|].
  intros j Hj. lia.
Qed.

End KeywordPatterns.

(** ** Whole-word occurrences *)

Section WholeWords.

Import CodeAnalyzer.

Lemma length_snoc (pre : string) (c : ascii) :
  String.length (pre ++ String c EmptyString) = S (String.length pre).
Proof.
  induction pre as [|x r IH]; cbn [String.append String.length];
    [reflexivity | now rewrite IH].
Qed.

Lemma append_snoc (pre r : string) (c : ascii) :
  ((pre ++ String c EmptyString) ++ r)%string = (pre ++ String c r)%string.
Proof.
  induction pre as [|x p IH]; cbn [String.append];
    [reflexivity | now rewrite IH].
Qed.

Lemma lastChar_snoc (pre : string) (c : ascii) :
  lastChar (pre ++ String c EmptyString) = Some c.
Proof.
  induction pre as [|x p IH]; cbn [String.append lastChar]; [reflexivity|].
  destruct (p ++ String c EmptyString)%string eqn:E.
  - destruct p; discriminate E.
  - exact IH.
Qed.

Lemma substring_after_prefix (pre s : string) (n : nat) :
  String.substring (String.length pre) n (pre ++ s) = String.substring 0 n s.
Proof.
  induction pre as [|x p IH];
    cbn [String.append String.length String.substring];
    [reflexivity | exact IH].
Qed.

Lemma wordAt_after_prefix (pre s : string) (j : nat) :
  RegExp.wordAt (pre ++ s) (String.length pre + j) = RegExp.wordAt s j.
Proof.
  unfold RegExp.wordAt. rewrite (Nat.add_comm (String.length pre) j).
  now rewrite <- append_correct2.
Qed.

Lemma word_before (pre s : string) :
  match String.length pre with
  | O => false
  | S j => RegExp.wordAt (pre ++ s) j
  end = Spec.wordBefore (lastChar pre).
Proof.
  induction pre as [|x p IH]; [reflexivity|].
  cbn [String.length String.append lastChar].
  destruct p as [|y q].
  - reflexivity.
  - cbn [String.length] in *. unfold RegExp.wordAt in *.
    cbn [String.get]. exact IH.
Qed.

Lemma eqb_substring_prefix (kw s : string) :
  String.eqb (String.substring 0 (String.length kw) s) kw = String.prefix kw s.
Proof.
  destruct (String.prefix kw s) eqn:E.
  - apply prefix_correct in E. now apply String.eqb_eq.
  - apply String.eqb_neq. intros H. apply prefix_correct in H. congruence.
Qed.

Lemma get_beyond (s : string) (n : nat) :
  (String.length s <= n)%nat -> String.get n s = None.
Proof.
  revert n. induction s as [|c r IH]; intros n H.
  - now destruct n.
  - destruct n as [|n]; cbn [String.length] in H; [lia|].
    cbn [String.get]. apply IH. lia.
Qed.

Lemma wordFirst_rest (s : string) (n : nat) :
  Spec.wordFirst (Js.substringFrom n s) = RegExp.wordAt s n.
Proof.
  unfold Js.substringFrom.
  assert (H : forall t, Spec.wordFirst t = RegExp.wordAt t 0)
    by (intros [|c t]; reflexivity).
  rewrite H. unfold RegExp.wordAt.
  destruct (Nat.ltb n (String.length s)) eqn:E.
  - apply Nat.ltb_lt in E.
    rewrite (substring_correct1 s n (String.length s - n) 0) by lia.
    reflexivity.
  - apply Nat.ltb_ge in E.
    replace (String.length s - n)%nat with 0%nat by lia.
    rewrite substring_zero, (get_beyond s n E). reflexivity.
Qed.

Lemma allWordChars_wordAt (kw : string) :
  allWordChars kw = true ->
  forall d, (d < String.length kw)%nat -> RegExp.wordAt kw d = true.
Proof.
  induction kw as [|c r IH]; intros H d Hd; [cbn in Hd; lia|].
  cbn [allWordChars] in H. apply andb_prop in H as [H1 H2].
  destruct d as [|d]; [exact H1|].
  unfold RegExp.wordAt in *. cbn [String.get].
  apply (IH H2). cbn [String.length] in Hd. lia.
Qed.

Lemma allWordChars_homogeneous (kw : string) :
  allWordChars kw = true -> homogeneous kw = true.
Proof.
  induction kw as [|c r IH]; intros H; [reflexivity|].
  cbn [allWordChars] in H. apply andb_prop in H as [H1 H2].
  destruct r as [|c' r']; [reflexivity|].
  change (homogeneous (String c (String c' r')))
    with (Bool.eqb (Js.isWordChar c) (Js.isWordChar c')
          && homogeneous (String c' r')).
  rewrite (IH H2).
  cbn [allWordChars] in H2. apply andb_prop in H2 as [H3 _].
  now rewrite H1, H3.
Qed.

(** At the index where the text [s] begins inside [pre ++ s], a keyword
    made of word characters occurs as the regular expression sees it
    exactly when it occurs as a whole word. *)
Lemma occurrence_structural (kw pre s : string) :
  allWordChars kw = true ->
  (0 < String.length kw)%nat ->
  wordOccurrenceAt kw (pre ++ s) (String.length pre)
  = String.prefix kw s && negb (Spec.wordBefore (lastChar pre))
    && negb (Spec.wordFirst (Js.substringFrom (String.length kw) s)).
Proof.
  intros Hw Hlen. unfold wordOccurrenceAt.
  rewrite substring_after_prefix, eqb_substring_prefix.
  destruct (String.prefix kw s) eqn:E.
  - rewrite <- eqb_substring_prefix in E.
    unfold RegExp.isWordBoundary.
    rewrite (word_before pre s).
    replace (String.length pre) with (String.length pre + 0)%nat at 1 by lia.
    rewrite wordAt_after_prefix.
    pose proof (occurrence_chars kw s 0 0 E Hlen) as H0.
    cbn [Nat.add] in H0. rewrite H0.
    rewrite (allWordChars_wordAt kw Hw 0 Hlen).
    destruct (String.length kw) as [|m] eqn:L; [lia|].
    replace (String.length pre + S m)%nat with (S (String.length pre + m))
      by lia.
    rewrite wordAt_after_prefix.
    replace (S (String.length pre + m)) with (String.length pre + S m)%nat
      by lia.
    rewrite wordAt_after_prefix.
    rewrite <- L in E.
    assert (Hm : (m < String.length kw)%nat) by lia.
    pose proof (occurrence_chars kw s 0 m E Hm) as H1.
    cbn [Nat.add] in H1. rewrite H1.
    rewrite (allWordChars_wordAt kw Hw m Hm).
    rewrite wordFirst_rest.
    destruct (Spec.wordBefore (lastChar pre)), (RegExp.wordAt s (S m));
      reflexivity.
  - now rewrite andb_false_r.
Qed.

Lemma countFrom_structural (kw : string) :
  allWordChars kw = true ->
  (0 < String.length kw)%nat ->
  forall s pre,
    Z.of_nat (countFrom (wordOccurrenceAt kw (pre ++ s)) (String.length pre)
                (S (String.length s)))
    = Spec.wholeWordOccurrences kw (lastChar pre) s.
Proof.
  intros Hw Hlen. induction s as [|c r IH]; intros pre.
  - cbn [String.length countFrom Spec.wholeWordOccurrences].
    rewrite (occurrence_structural kw pre EmptyString Hw Hlen).
    destruct kw; [cbn in Hlen; lia|]. reflexivity.
  - cbn [String.length Spec.wholeWordOccurrences].
    change (countFrom (wordOccurrenceAt kw (pre ++ String c r))
              (String.length pre) (S (S (String.length r))))
      with ((if wordOccurrenceAt kw (pre ++ String c r) (String.length pre)
             then 1 else 0)
            + countFrom (wordOccurrenceAt kw (pre ++ String c r))
                (S (String.length pre)) (S (String.length r)))%nat.
    rewrite (occurrence_structural kw pre (String c r) Hw Hlen).
    specialize (IH (pre ++ String c EmptyString)%string).
    rewrite append_snoc, length_snoc, lastChar_snoc in IH.
    rewrite Nat2Z.inj_add, IH.
    destruct (String.prefix kw (String c r)
              && negb (Spec.wordBefore (lastChar pre))
              && negb (Spec.wordFirst
                         (Js.substringFrom (String.length kw) (String c r))));
      reflexivity.
Qed.

End WholeWords.

(** ** The complexity in closed form *)

Section ComplexityFormula.

Import CodeAnalyzer.

Lemma addMatches_keyword (code : string) (complexity : Z) (kw : string) :
  RegExp.new ("\b" ++ kw ++ "\b") = keywordPattern kw ->
  homogeneous kw = true ->
  addMatches code complexity kw
  = complexity
    + Z.of_nat (countFrom (wordOccurrenceAt kw code) 0
                  (S (String.length code))).
Proof.
  intros Hp Hh. unfold addMatches, matchGlobal. rewrite Hp.
  rewrite <- (keyword_match_count kw code Hh).
  destruct (RegExp.matchAll (keywordPattern kw) code) as [|m ms];
    cbn [List.length]; lia.
Qed.

Lemma addMatches_word (code : string) (complexity : Z) (kw : string) :
  RegExp.new ("\b" ++ kw ++ "\b") = keywordPattern kw ->
  allWordChars kw = true ->
  (0 < String.length kw)%nat ->
  addMatches code complexity kw
  = complexity + Spec.wholeWordOccurrences kw None code.
Proof.
  intros Hp Hw Hlen.
  rewrite (addMatches_keyword code complexity kw Hp
             (allWordChars_homogeneous kw Hw)).
  pose proof (countFrom_structural kw Hw Hlen code EmptyString) as H.
  cbn [String.append String.length lastChar] in H. now rewrite H.
Qed.

Ltac word_keyword :=
  apply addMatches_word; [reflexivity | reflexivity | cbn; lia].

(** X24. For each of the seven word keywords, the keyword loop adds the
    number of whole-word occurrences of the keyword in the text: the
    occurrences with no word character right before and none right
    after. *)
Theorem addMatches_whole_words (code : string) (complexity : Z) :
  Forall
    (fun kw =>
       addMatches code complexity kw
       = complexity + Spec.wholeWordOccurrences kw None code)
    ["if"; "else"; "for"; "while"; "switch"; "case"; "catch"].
Proof.
  repeat (constructor; [word_keyword|]). constructor.
Qed.

Lemma amp_occurrence (code : string) (i : nat) :
  wordOccurrenceAt "&&" code i
  = match i with O => false | S j => RegExp.wordAt code j end
    && String.eqb (String.substring i 2 code) "&&"
    && RegExp.wordAt code (i + 2).
Proof.
  unfold wordOccurrenceAt. cbn [String.length].
  destruct (String.eqb (String.substring i 2 code) "&&") eqn:E.
  - unfold RegExp.isWordBoundary.
    assert (H0 : (0 < String.length "&&")%nat) by (cbn; lia).
    assert (H1 : (1 < String.length "&&")%nat) by (cbn; lia).
    pose proof (occurrence_chars "&&" code i 0 E H0) as A0.
    pose proof (occurrence_chars "&&" code i 1 E H1) as A1.
    rewrite Nat.add_0_r in A0. rewrite A0.
    replace (i + 2)%nat with (S (i + 1)) by lia. rewrite A1.
    cbn [RegExp.wordAt String.get Js.isWordChar].
    change (Js.isWordChar "&") with false.
    destruct i; rewrite ?xorb_false_r, ?xorb_false_l; reflexivity.
  - now rewrite !andb_false_r.
Qed.

Lemma countFrom_ext (p q : nat -> bool) :
  (forall i, p i = q i) ->
  forall n i, countFrom p i n = countFrom q i n.
Proof.
  intros H n. induction n as [|n IH]; intros i; cbn [countFrom];
    [reflexivity|]. now rewrite IH, H.
Qed.

(** X25. The complexity in closed form: 1, plus the whole-word
    occurrences of the seven word keywords, plus the occurrences of [&&]
    that have a word character right before and right after, plus the
    length of the text plus 1 (what the pattern of [||] matches), capped
    at 20. *)
Theorem calculateComplexity_closed_form (code : string) (language : Js.Value) :
  let words :=
    fold_right (fun kw n => Spec.wholeWordOccurrences kw None code + n) 0
      ["if"; "else"; "for"; "while"; "switch"; "case"; "catch"] in
  let operands :=
    Z.of_nat
      (countFrom
         (fun i =>
            match i with O => false | S j => RegExp.wordAt code j end
            && String.eqb (String.substring i 2 code) "&&"
            && RegExp.wordAt code (i + 2))
         0 (S (String.length code))) in
  calculateComplexity code language
  = Z.min 20 (1 + words + operands + (Js.length code + 1)).
Proof.
  intros words operands.
  assert (Ha : forall c,
             addMatches code c "&&" = c + operands).
  { intros c. rewrite (addMatches_keyword code c "&&" eq_refl eq_refl).
    subst operands. f_equal. f_equal.
    apply countFrom_ext. apply amp_occurrence. }
  rewrite calculateComplexity_unfold. unfold complexityKeywords.
  cbn [fold_left].
  rewrite addMatches_pipe, Ha.
  repeat (rewrite addMatches_word; [| reflexivity | reflexivity | cbn; lia]).
  subst words. cbn [fold_right]. lia.
Qed.

(** X26. Whatever the text: the complexity is at least 2 plus the length
    of the text, up to the cap of 20, so every text of 18 characters or
    more has complexity 20; the maintainability index is at most 96. *)
Theorem calculateComplexity_floor (code : string) (language : Js.Value) :
  Z.min 20 (2 + Js.length code) <= calculateComplexity code language <= 20
  /\ (calculateMaintainabilityIndex code language <= 96)%Q.
Proof.
  pose proof (calculateComplexity_length code language) as Hlo.
  pose proof (calculateComplexity_range code language) as [_ Hhi].
  split; [split; assumption|].
  unfold calculateMaintainabilityIndex.
  apply Q.max_lub; [discriminate|].
  eapply Qle_trans; [apply Q.le_min_r|].
  assert (Hc : (2 <= inject_Z (calculateComplexity code language))%Q).
  { change (inject_Z 2 <= inject_Z (calculateComplexity code language))%Q.
    rewrite <- Zle_Qle. unfold Js.length in Hlo. lia. }
  assert (Hl : (0 <= inject_Z (countLinesOfCode code))%Q).
  { change (inject_Z 0 <= inject_Z (countLinesOfCode code))%Q.
    rewrite <- Zle_Qle. unfold countLinesOfCode. lia. }
  lra.
Qed.

End ComplexityFormula.
